(** * foamlib: OpenFOAM environment detection and command wrapping

    A shallow embedding of [foamlib/_cases/_openfoam.py] together with the
    properties of its four functions

      - [is_in_openfoam_environment]
      - [get_openfoam_version]
      - [get_openfoam_command_prefix]
      - [should_wrap_command] / [wrap_openfoam_command]

    The process environment ([os.environ]) is a finite map from names to
    values, the executable search path ([shutil.which]) is a function from a
    program name to the path it resolves to, if any.  Both are read-only for
    the module, so every function takes the same [World] and returns a value.

    Python [str] values are Rocq strings whose characters are the code points
    below 256; the character classes of [str.split] and [str.isdigit] are the
    ones Python uses on that range.  Paths follow [pathlib.PurePosixPath]. *)

From Stdlib Require Import Ascii String.
From stdpp Require Import base strings gmap list.

Set Warnings "-clear-no-such-hyp".

(** ** Python string primitives *)

Module PyStr.

(** [len(s)] *)
Definition len (s : string) : nat := String.length s.

(** [s.startswith(p)] *)
Fixpoint startswith (p s : string) : bool :=
  match p, s with
  | EmptyString, _ => true
  | String a p', String b s' => if decide (a = b) then startswith p' s' else false
  | String _ _, EmptyString => false
  end.

(** [s[n:]] for [n >= 0] *)
Fixpoint slice_from (n : nat) (s : string) : string :=
  match n, s with
  | O, _ => s
  | S n', String _ s' => slice_from n' s'
  | S _, EmptyString => EmptyString
  end.

(** [s[:n]] for [n >= 0] *)
Fixpoint slice_to (n : nat) (s : string) : string :=
  match n, s with
  | S n', String c s' => String c (slice_to n' s')
  | _, _ => EmptyString
  end.

(** [s[i:j]] for [0 <= i <= j] *)
Definition slice (i j : nat) (s : string) : string :=
  slice_to (j - i) (slice_from i s).

(** [sub in s] *)
Fixpoint contains (sub s : string) : bool :=
  startswith sub s ||
  match s with
  | EmptyString => false
  | String _ s' => contains sub s'
  end.

(** Code points below 256 for which [str.isdigit] holds: the decimal
    digits and the superscripts two, three and one. *)
Definition isdigit_char (c : ascii) : bool :=
  let n := nat_of_ascii c in
  ((48 <=? n) && (n <=? 57)) || (n =? 178) || (n =? 179) || (n =? 185).

Fixpoint all_chars (f : ascii → bool) (s : string) : bool :=
  match s with
  | EmptyString => true
  | String c s' => f c && all_chars f s'
  end.

(** [s.isdigit()]: non-empty and every character is a digit. *)
Definition isdigit (s : string) : bool :=
  match s with
  | EmptyString => false
  | String _ _ => all_chars isdigit_char s
  end.

(** Code points below 256 that [str.split()] treats as whitespace. *)
Definition isspace_char (c : ascii) : bool :=
  let n := nat_of_ascii c in
  ((9 <=? n) && (n <=? 13)) || ((28 <=? n) && (n <=? 32))
  || (n =? 133) || (n =? 160).

(** [s.split()]: the maximal runs of non-whitespace characters.  The
    helper returns the run that [s] starts with (empty when [s] starts
    with whitespace) and the runs after it. *)
Fixpoint split_runs (s : string) : string * list string :=
  match s with
  | EmptyString => (EmptyString, [])
  | String c s' =>
      let '(run, runs) := split_runs s' in
      if isspace_char c
      then (EmptyString, match run with EmptyString => runs | _ => run :: runs end)
      else (String c run, runs)
  end.

Definition split (s : string) : list string :=
  let '(run, runs) := split_runs s in
  match run with EmptyString => runs | _ => run :: runs end.

(** [s.split(sep)] for a one-character separator. *)
Fixpoint split_on (sep : ascii) (s : string) : list string :=
  match s with
  | EmptyString => [EmptyString]
  | String c s' =>
      if decide (c = sep) then EmptyString :: split_on sep s'
      else match split_on sep s' with
           | field :: fields => String c field :: fields
           | [] => [String c EmptyString]
           end
  end.

(** [sep.join(parts)] *)
Fixpoint join (sep : string) (parts : list string) : string :=
  match parts with
  | [] => EmptyString
  | [p] => p
  | p :: rest => p +:+ sep +:+ join sep rest
  end.

(** Truth value of a [str | None]: [None] and the empty string are false. *)
Definition truthy (o : option string) : bool :=
  match o with
  | Some (String _ _) => true
  | _ => false
  end.

(** [a and b] on [str | None] values. *)
Definition and_ (a b : option string) : option string :=
  if truthy a then b else a.

(** What an f-string renders for a [str | None]. *)
Definition format (o : option string) : string :=
  match o with
  | Some s => s
  | None => "None"
  end.

End PyStr.

(** ** [pathlib.PurePosixPath] *)

Module PosixPath.

Definition sep : string := "/".

(** [posixpath.splitroot] without the (always empty) drive: a path that
    starts with exactly two slashes has root ["//"], any other absolute
    path has root ["/"]. *)
Definition splitroot (p : string) : string * string :=
  if negb (bool_decide (PyStr.slice 0 1 p = sep)) then ("", p)
  else if negb (bool_decide (PyStr.slice 1 2 p = sep))
          || bool_decide (PyStr.slice 2 3 p = sep)
       then (sep, PyStr.slice_from 1 p)
       else (PyStr.slice 0 2 p, PyStr.slice_from 2 p).

Definition keep_component (x : string) : bool :=
  negb (bool_decide (x = "")) && negb (bool_decide (x = ".")).

(** The components after the root: the fields between slashes, without
    the empty ones and the ["."] ones. *)
Definition tail (p : string) : list string :=
  List.filter keep_component (PyStr.split_on "/" (snd (splitroot p))).

(** [Path(p).parts] *)
Definition parts (p : string) : list string :=
  match fst (splitroot p) with
  | EmptyString => tail p
  | root => root :: tail p
  end.

(** [Path(p).name] *)
Definition name (p : string) : string := List.last (tail p) "".

End PosixPath.

(** ** The module's constants *)

(** Common OpenFOAM utilities that need to be wrapped. *)
Definition OPENFOAM_COMMANDS_list : list string :=
  [ "blockMesh"; "decomposePar"; "reconstructPar"; "foamRun"; "simpleFoam";
    "icoFoam"; "pimpleFoam"; "interFoam"; "setFields"; "postProcess";
    "checkMesh"; "surfaceFeatureExtract"; "snappyHexMesh"; "ansysToFoam";
    "fluent3DMeshToFoam"; "transformPoints"; "createPatch"; "mapFields";
    "renumberMesh"; "splitMeshRegions"; "stitchMesh"; "mergeOrSplitBaffles";
    "createBaffles"; "topoSet"; "refineMesh" ].

Definition OPENFOAM_COMMANDS : gset string := list_to_set OPENFOAM_COMMANDS_list.

(** Default OpenFOAM version to use if none can be detected. *)
Definition DEFAULT_OPENFOAM_VERSION : string := "2412".

(** ** The world the module reads *)

Record World := mkWorld {
  environ : gmap string string;      (* os.environ *)
  which : string → option string     (* shutil.which *)
}.

Section Detection.

Variable w : World.

(** [os.environ.get(var)] *)
Definition getenv (var : string) : option string := environ w !! var.

(** [if version := os.environ.get(var): ...]: the value when it is true. *)
Definition getenv_true (var : string) : option string :=
  if PyStr.truthy (getenv var) then getenv var else None.

Definition openfoam_vars : list string :=
  [ "WM_PROJECT_DIR"; "FOAM_APP"; "FOAM_SRC"; "FOAM_LIBBIN" ].

(** The loop [for var in openfoam_vars: if os.environ.get(var): return True]. *)
Fixpoint any_var_set (vars : list string) : bool :=
  match vars with
  | [] => false
  | var :: rest => if PyStr.truthy (getenv var) then true else any_var_set rest
  end.

Definition is_in_openfoam_environment : bool :=
  if any_var_set openfoam_vars then true
  else PyStr.truthy (PyStr.and_ (which w "blockMesh") (which w "foamRun")).

(** The loop over [Path(foam_dir).parts]. *)
Fixpoint scan_parts (path_parts : list string) : option string :=
  match path_parts with
  | [] => None
  | part :: rest =>
      if PyStr.startswith "openfoam" part && (8 <? PyStr.len part) then
        let version := PyStr.slice_from 8 part in
        if PyStr.isdigit version || PyStr.contains "." version
        then Some version
        else scan_parts rest
      else scan_parts rest
  end.

(** The loop [for version in versions: if shutil.which(f"openfoam{version}"):
    return version]. *)
Fixpoint probe_versions (versions : list string) : option string :=
  match versions with
  | [] => None
  | version :: rest =>
      if PyStr.truthy (which w ("openfoam" +:+ version)) then Some version
      else probe_versions rest
  end.

Definition common_versions : list string := [ "2412"; "2406"; "11"; "10"; "9"; "8" ].

(** The block guarded by [if is_in_openfoam_environment():]; [None] when
    control falls out of it. *)
Definition version_from_environment : option string :=
  if is_in_openfoam_environment then
    match getenv_true "WM_PROJECT_VERSION" with
    | Some version => Some version
    | None =>
        match getenv_true "WM_PROJECT_DIR" with
        | Some foam_dir => scan_parts (PosixPath.parts foam_dir)
        | None => None
        end
    end
  else None.

Definition get_openfoam_version : option string :=
  match getenv_true "FOAMLIB_OPENFOAM_VERSION" with
  | Some version => Some version
  | None =>
      match getenv_true "OPENFOAM_VERSION" with
      | Some version => Some version
      | None =>
          match version_from_environment with
          | Some version => Some version
          | None => probe_versions common_versions
          end
      end
  end.

Definition docker_prefix (version : string) : list string :=
  [ "docker"; "run"; "--rm"; "-v"; "${PWD}:/workspace"; "-w"; "/workspace";
    "openfoam/openfoam" +:+ version +:+ "-paraview510" ].

(** The loop [for default_version in ...: if shutil.which(...):
    version = default_version; break]. *)
Fixpoint try_defaults (version : option string) (defaults : list string)
  : option string :=
  match defaults with
  | [] => version
  | default_version :: rest =>
      if PyStr.truthy (which w ("openfoam" +:+ default_version))
      then Some default_version
      else try_defaults version rest
  end.

(** The code after the [if not version:] block. *)
Definition wrapper_or_docker (version : option string) : list string :=
  let openfoam_cmd := "openfoam" +:+ PyStr.format version in
  if PyStr.truthy (which w openfoam_cmd) then [openfoam_cmd]
  else if PyStr.truthy (which w "docker")
       then docker_prefix (PyStr.format version)
       else [].

Definition get_openfoam_command_prefix : list string :=
  if is_in_openfoam_environment then []
  else
    let version := get_openfoam_version in
    if negb (PyStr.truthy version) then
      let version := try_defaults version [ "2412"; "2406"; "11"; "10" ] in
      if negb (PyStr.truthy version) then
        if PyStr.truthy (which w "docker")
        then docker_prefix DEFAULT_OPENFOAM_VERSION
        else []
      else wrapper_or_docker version
    else wrapper_or_docker version.

End Detection.

(** ** Commands and exceptions *)

(** An element of a command sequence: a [str] or an [os.PathLike] object,
    the latter given by the string its [__fspath__] returns. *)
Inductive token :=
  | Str (s : string)
  | PathLike (p : string).

(** A command is a single string or a sequence of tokens. *)
Inductive command :=
  | StrCmd (s : string)
  | SeqCmd (l : list token).

Inductive exn := IndexError.

(** Outcome of a Python expression that may raise. *)
Inductive py (A : Type) :=
  | Ret (a : A)
  | Raise (e : exn).
Arguments Ret {A} a.
Arguments Raise {A} e.

Definition py_bind {A B} (m : py A) (k : A → py B) : py B :=
  match m with
  | Ret a => k a
  | Raise e => Raise e
  end.

Notation "'do' x <- m 'in' k" := (py_bind m (fun x => k))
  (at level 10, x name, m at level 100, k at level 200).

(** [l[i]] *)
Definition getitem {A} (l : list A) (i : nat) : py A :=
  match l !! i with
  | Some a => Ret a
  | None => Raise IndexError
  end.

(** [not l] for a list. *)
Definition is_empty {A} (l : list A) : bool :=
  match l with
  | [] => true
  | _ => false
  end.

(** [Path(cmd).name if isinstance(cmd, os.PathLike) else str(cmd)] *)
Definition cmd_name (cmd : token) : string :=
  match cmd with
  | PathLike p => PosixPath.name p
  | Str s => s
  end.

Definition should_wrap_command (cmd : token) : bool :=
  bool_decide (cmd_name cmd ∈ OPENFOAM_COMMANDS).

Section Wrapping.

Variable w : World.

(** [not cmd or not should_wrap_command(cmd[0])], evaluated left to right. *)
Definition nothing_to_wrap (cmd : list token) : py bool :=
  if is_empty cmd then Ret true
  else do first <- getitem cmd 0 in Ret (negb (should_wrap_command first)).

(** [len(prefix) == 1 and prefix[0].startswith("openfoam")] *)
Definition is_wrapper_prefix (prefix : list string) : py bool :=
  if length prefix =? 1
  then do first <- getitem prefix 0 in Ret (PyStr.startswith "openfoam" first)
  else Ret false.

Definition wrap_openfoam_command (cmd : command) : py command :=
  match cmd with
  | StrCmd s =>
      let cmd_parts := PyStr.split s in
      do stop <- nothing_to_wrap (Str <$> cmd_parts) in
      if stop : bool then Ret cmd
      else
        let prefix := get_openfoam_command_prefix w in
        if is_empty prefix then Ret cmd
        else
          do single <- is_wrapper_prefix prefix in
          if single : bool then
            do first <- getitem prefix 0 in
            Ret (StrCmd (first +:+ " " +:+ s))
          else Ret (StrCmd (PyStr.join " " prefix +:+ " " +:+ s))
  | SeqCmd l =>
      do stop <- nothing_to_wrap l in
      if stop : bool then Ret cmd
      else
        let prefix := get_openfoam_command_prefix w in
        if is_empty prefix then Ret cmd
        else Ret (SeqCmd ((Str <$> prefix) ++ l))
  end.

End Wrapping.

(** ** Vocabulary of the statements *)

(** The variable is set to a non-empty value. *)
Definition env_set (w : World) (var : string) : Prop :=
  ∃ v, environ w !! var = Some v ∧ v ≠ "".

(** The variable is unset or empty. *)
Definition env_unset (w : World) (var : string) : Prop :=
  environ w !! var = None ∨ environ w !! var = Some "".

(** The program resolves on the executable search path. *)
Definition on_path (w : World) (prog : string) : Prop :=
  PyStr.truthy (which w prog) = true.

Definition not_on_path (w : World) (prog : string) : Prop :=
  PyStr.truthy (which w prog) = false.

(** The three shapes of a prefix. *)
Definition empty_shape (prefix : list string) : Prop := prefix = [].

Definition wrapper_shape (prefix : list string) : Prop :=
  ∃ tok, prefix = [tok] ∧ PyStr.startswith "openfoam" tok = true.

Definition container_shape (prefix : list string) : Prop :=
  ∃ image,
    prefix = [ "docker"; "run"; "--rm"; "-v"; "${PWD}:/workspace"; "-w";
               "/workspace"; image ].

Definition no_space (c : ascii) : bool := negb (PyStr.isspace_char c).

(** The command names a recognized command: its first token, or the first
    word of the string, is wrappable. *)
Definition names_recognized_command (cmd : command) : Prop :=
  match cmd with
  | StrCmd s =>
      ∃ word, head (PyStr.split s) = Some word ∧ should_wrap_command (Str word) = true
  | SeqCmd l =>
      ∃ first, head l = Some first ∧ should_wrap_command first = true
  end.

(** The suffix is version-like: all digits, or with a decimal point. *)
Definition version_like (suffix : string) : Prop :=
  PyStr.isdigit suffix = true ∨ PyStr.contains "." suffix = true.

(** The path component is ["openfoam"] followed by a version-like suffix. *)
Definition carries_version (part version : string) : Prop :=
  part = "openfoam" +:+ version ∧ version ≠ "" ∧ version_like version.

Definition no_slash (c : ascii) : bool := negb (bool_decide (c = "/"%char)).

(** The version is the first of the list whose wrapper resolves. *)
Definition first_resolvable (w : World) (versions : list string) (version : string)
  : Prop :=
  ∃ before after,
    versions = before ++ version :: after
    ∧ (∀ u, u ∈ before → not_on_path w ("openfoam" +:+ u))
    ∧ on_path w ("openfoam" +:+ version).

(** The environment variables the module reads. *)
Definition read_variables : list string :=
  [ "WM_PROJECT_DIR"; "FOAM_APP"; "FOAM_SRC"; "FOAM_LIBBIN";
    "FOAMLIB_OPENFOAM_VERSION"; "OPENFOAM_VERSION"; "WM_PROJECT_VERSION" ].

(** Two worlds agree on the variables the module reads and on which
    programs resolve (not necessarily on where they resolve to). *)
Definition same_inputs (w w' : World) : Prop :=
  (∀ var, var ∈ read_variables → environ w !! var = environ w' !! var)
  ∧ (∀ prog, PyStr.truthy (which w prog) = PyStr.truthy (which w' prog)).

(** The string has no whitespace character. *)
Definition whitespace_free (s : string) : Prop := PyStr.all_chars no_space s = true.

(** ** Example worlds *)

Definition docker_only : World :=
  mkWorld ∅ (λ prog, if decide (prog = "docker") then Some "/usr/bin/docker" else None).

Definition docker_with_version_9 : World :=
  mkWorld {[ "OPENFOAM_VERSION" := "9" ]}
          (λ prog, if decide (prog = "docker") then Some "/usr/bin/docker" else None).

Definition wrapper_2412_only : World :=
  mkWorld ∅ (λ prog, if decide (prog = "openfoam2412")
                     then Some "/usr/bin/openfoam2412" else None).

Definition nothing_installed : World := mkWorld ∅ (λ _, None).

Definition sourced_openfoam10 : World :=
  mkWorld {[ "WM_PROJECT_DIR" := "/opt/openfoam10/platforms/linux64GccDPInt32Opt" ]}
          (λ _, None).

Definition sourced_openfoam_dev : World :=
  mkWorld {[ "WM_PROJECT_DIR" := "/opt/openfoam-dev/OpenFOAM-dev" ]}
          (λ prog, if decide (prog = "openfoam9") then Some "/usr/bin/openfoam9" else None).

Definition wrappers_11_and_9 : World :=
  mkWorld {[ "WM_PROJECT_VERSION" := "10" ]}
          (λ prog, if decide (prog = "openfoam11") then Some "/usr/bin/openfoam11"
                   else if decide (prog = "openfoam9") then Some "/usr/bin/openfoam9"
                   else if decide (prog = "docker") then Some "/usr/bin/docker"
                   else None).

Definition sourced_with_project_version : World :=
  mkWorld (<["WM_PROJECT_VERSION" := "v2312"]>
           (<["WM_PROJECT_DIR" := "/opt/openfoam10"]> ∅))
          (λ _, None).

Definition pinned_7_without_wrapper : World :=
  mkWorld {[ "FOAMLIB_OPENFOAM_VERSION" := "7" ]}
          (λ prog, if decide (prog = "openfoam2412") then Some "/usr/bin/openfoam2412"
                   else if decide (prog = "docker") then Some "/usr/local/bin/docker"
                   else None).

Definition docker_elsewhere : World :=
  mkWorld {[ "HOME" := "/home/user" ]}
          (λ prog, if decide (prog = "docker") then Some "/snap/bin/docker" else None).

(** * Properties *)

(** ** Truth values and environment lookups *)

Lemma truthy_true o : PyStr.truthy o = true ↔ ∃ s, o = Some s ∧ s ≠ "".
Proof.
  split.
  - destruct o as [[|c s]|]; simpl; try discriminate. intros _. by exists (String c s).
  - intros (s & -> & Hs). by destruct s.
Qed.

Lemma truthy_false o : PyStr.truthy o = false ↔ o = None ∨ o = Some "".
Proof.
  destruct o as [[|c s]|]; simpl; split; auto; try discriminate.
  intros [?|?]; discriminate.
Qed.

Lemma env_set_truthy w var : env_set w var ↔ PyStr.truthy (getenv w var) = true.
Proof. unfold env_set, getenv. by rewrite truthy_true. Qed.

Lemma env_unset_truthy w var : env_unset w var ↔ PyStr.truthy (getenv w var) = false.
Proof. unfold env_unset, getenv. by rewrite truthy_false. Qed.

Lemma env_unset_not_set w var : env_unset w var ↔ ¬ env_set w var.
Proof.
  rewrite env_unset_truthy, env_set_truthy. destruct (PyStr.truthy _); naive_solver.
Qed.

Lemma getenv_true_Some w var v :
  getenv_true w var = Some v ↔ environ w !! var = Some v ∧ v ≠ "".
Proof.
  unfold getenv_true, getenv.
  destruct (environ w !! var) as [[|c s]|]; simpl; naive_solver.
Qed.

Lemma getenv_true_None w var : getenv_true w var = None ↔ env_unset w var.
Proof.
  unfold getenv_true, getenv, env_unset.
  destruct (environ w !! var) as [[|c s]|]; simpl; naive_solver.
Qed.

(** ** The environment detector *)

Lemma any_var_set_true w vars :
  any_var_set w vars = true ↔ ∃ var, var ∈ vars ∧ env_set w var.
Proof.
  induction vars as [|x vars IH]; simpl.
  - split; [discriminate | intros (? & []%elem_of_nil & _)].
  - destruct (PyStr.truthy (getenv w x)) eqn:Hx.
    + split; [|done]. intros _. exists x. split; [left | by apply env_set_truthy].
    + rewrite IH. split.
      * intros (var & ? & ?). exists var. split; [by right | done].
      * intros (var & [->|?]%elem_of_cons & Hs); [|by exists var].
        apply env_set_truthy in Hs. congruence.
Qed.

Lemma and_truthy a b :
  PyStr.truthy (PyStr.and_ a b) = PyStr.truthy a && PyStr.truthy b.
Proof. unfold PyStr.and_. by destruct (PyStr.truthy a) eqn:Ha. Qed.

Lemma is_in_openfoam_environment_true w :
  is_in_openfoam_environment w = true ↔
    (∃ var, var ∈ openfoam_vars ∧ env_set w var)
    ∨ (on_path w "blockMesh" ∧ on_path w "foamRun").
Proof.
  unfold is_in_openfoam_environment, on_path.
  rewrite and_truthy, <- any_var_set_true.
  destruct (any_var_set w openfoam_vars); [naive_solver|].
  rewrite andb_true_iff. naive_solver.
Qed.

(** C2. [is_in_openfoam_environment] is true exactly when one of the four
    activation variables has a non-empty value, or none has and both
    [blockMesh] and [foamRun] resolve on the search path; and whenever it is
    true, [get_openfoam_command_prefix] returns the empty list. *)
Theorem active_environment_iff_and_no_prefix (w : World) :
  (is_in_openfoam_environment w = true ↔
     (∃ var, var ∈ [ "WM_PROJECT_DIR"; "FOAM_APP"; "FOAM_SRC"; "FOAM_LIBBIN" ]
             ∧ env_set w var)
     ∨ ((∀ var, var ∈ [ "WM_PROJECT_DIR"; "FOAM_APP"; "FOAM_SRC"; "FOAM_LIBBIN" ]
                → env_unset w var)
        ∧ on_path w "blockMesh" ∧ on_path w "foamRun"))
  ∧ (is_in_openfoam_environment w = true → get_openfoam_command_prefix w = []).
Proof.
  split.
  - rewrite is_in_openfoam_environment_true. fold openfoam_vars.
    split; [|naive_solver].
    intros [Hset|Hprobe]; [by left|].
    destruct (any_var_set w openfoam_vars) eqn:Hany.
    + left. by apply any_var_set_true.
    + right. split; [|done]. intros var Hvar. apply env_unset_not_set.
      intros Hs. assert (any_var_set w openfoam_vars = true); [|congruence].
      apply any_var_set_true. eauto.
  - intros Hin. unfold get_openfoam_command_prefix. by rewrite Hin.
Qed.

Lemma active_environment_iff_and_no_prefix_witness :
  is_in_openfoam_environment
    (mkWorld {[ "FOAM_SRC" := "/opt/openfoam10/src" ]} (λ _, None)) = true
  ∧ get_openfoam_command_prefix
      (mkWorld {[ "FOAM_SRC" := "/opt/openfoam10/src" ]} (λ _, None)) = [].
Proof.
  destruct (active_environment_iff_and_no_prefix
              (mkWorld {[ "FOAM_SRC" := "/opt/openfoam10/src" ]} (λ _, None)))
    as [Hiff Hprefix].
  assert (is_in_openfoam_environment
            (mkWorld {[ "FOAM_SRC" := "/opt/openfoam10/src" ]} (λ _, None)) = true)
    as Hin.
  { apply Hiff. left. exists "FOAM_SRC". split.
    - apply list_elem_of_lookup. by exists 2.
    - by exists "/opt/openfoam10/src". }
  split; [exact Hin | exact (Hprefix Hin)].
Defined.

(** ** The version resolver *)

Lemma append_nil (s : string) : "" +:+ s = s.
Proof. reflexivity. Qed.

Lemma append_cons c (a b : string) : String c a +:+ b = String c (a +:+ b).
Proof. reflexivity. Qed.

Lemma startswith_app p s : PyStr.startswith p (p +:+ s) = true.
Proof. induction p as [|c p IH]; simpl; [done|]. by rewrite decide_True. Qed.

Lemma startswith_iff p s : PyStr.startswith p s = true ↔ ∃ t, s = p +:+ t.
Proof.
  split; [|intros [t ->]; apply startswith_app].
  revert s. induction p as [|c p IH]; intros s; simpl.
  - by exists s.
  - destruct s as [|b s]; [discriminate|]. case_decide; [|discriminate].
    intros [t ->]%IH. exists t. by subst.
Qed.

Lemma slice_from_app p s : PyStr.slice_from (String.length p) (p +:+ s) = s.
Proof. induction p; simpl; auto. Qed.

Lemma contains_nonempty sub s : sub ≠ "" → PyStr.contains sub s = true → s ≠ "".
Proof. intros Hsub Hc ->. by destruct sub. Qed.

Lemma isdigit_nonempty s : PyStr.isdigit s = true → s ≠ "".
Proof. by destruct s. Qed.

(** What the scan of the path components returns: the text after
    ["openfoam"] of the first component that carries a version-like one. *)
Lemma scan_parts_Some path_parts version :
  scan_parts path_parts = Some version →
  ("openfoam" +:+ version) ∈ path_parts
  ∧ version ≠ ""
  ∧ (PyStr.isdigit version = true ∨ PyStr.contains "." version = true).
Proof.
  induction path_parts as [|part rest IH]; cbn [scan_parts]; [discriminate|].
  destruct (PyStr.startswith "openfoam" part) eqn:Hpre; cbn [andb];
    [|intros (? & ?)%IH; split; [by right | done]].
  destruct (8 <? PyStr.len part); cbn [andb];
    [|intros (? & ?)%IH; split; [by right | done]].
  apply startswith_iff in Hpre as [t ->].
  change 8 with (String.length "openfoam"). rewrite slice_from_app.
  destruct (PyStr.isdigit t || PyStr.contains "." t) eqn:Hok;
    [|intros (? & ?)%IH; split; [by right | done]].
  intros [= <-]. split; [left|]. apply orb_true_iff in Hok. split; [|done].
  destruct Hok as [Hd|Hc]; [by apply isdigit_nonempty|].
  by apply (contains_nonempty ".").
Qed.

Lemma probe_versions_Some w versions version :
  probe_versions w versions = Some version →
  version ∈ versions ∧ on_path w ("openfoam" +:+ version).
Proof.
  induction versions as [|v rest IH]; simpl; [discriminate|].
  destruct (PyStr.truthy (which w ("openfoam" +:+ v))) eqn:Hv.
  - intros [= <-]. split; [left | done].
  - intros (? & ?)%IH. split; [by right | done].
Qed.

Lemma probe_versions_None w versions :
  probe_versions w versions = None ↔
  ∀ version, version ∈ versions → not_on_path w ("openfoam" +:+ version).
Proof.
  unfold not_on_path. induction versions as [|v rest IH]; simpl.
  - split; [|done]. by intros _ ? ?%elem_of_nil.
  - destruct (PyStr.truthy (which w ("openfoam" +:+ v))) eqn:Hv.
    + split; [discriminate|]. intros H. specialize (H v). rewrite Hv in H.
      by discriminate H; left.
    + rewrite IH. split.
      * intros H version [->|?]%elem_of_cons; auto.
      * intros H version ?. apply H. by right.
Qed.

(** A resolved version is never the empty string. *)
Lemma get_openfoam_version_nonempty w version :
  get_openfoam_version w = Some version → version ≠ "".
Proof.
  unfold get_openfoam_version, version_from_environment.
  destruct (getenv_true w "FOAMLIB_OPENFOAM_VERSION") eqn:H1.
  { intros [= <-]. by apply getenv_true_Some in H1 as [_ ?]. }
  destruct (getenv_true w "OPENFOAM_VERSION") eqn:H2.
  { intros [= <-]. by apply getenv_true_Some in H2 as [_ ?]. }
  assert (probe_versions w common_versions = Some version → version ≠ "") as Hprobe.
  { intros [Hin _]%probe_versions_Some. intros ->.
    unfold common_versions in Hin. set_solver. }
  destruct (is_in_openfoam_environment w); [|done].
  destruct (getenv_true w "WM_PROJECT_VERSION") eqn:H3.
  { intros [= <-]. by apply getenv_true_Some in H3 as [_ ?]. }
  destruct (getenv_true w "WM_PROJECT_DIR") eqn:H4; [|done].
  destruct (scan_parts _) eqn:Hscan; [|done].
  intros [= <-]. by apply scan_parts_Some in Hscan as (_ & ? & _).
Qed.

Lemma get_openfoam_version_truthy w :
  PyStr.truthy (get_openfoam_version w) = true ∨ get_openfoam_version w = None.
Proof.
  destruct (get_openfoam_version w) as [v|] eqn:Hv; [left | by right].
  apply get_openfoam_version_nonempty in Hv. by destruct v.
Qed.

(** C6. A non-empty [FOAMLIB_OPENFOAM_VERSION] is the resolved version,
    whatever the other variables and the search path are; when it is unset
    (or empty), a non-empty [OPENFOAM_VERSION] is the resolved version,
    before any detection from the environment or the search path. *)
Theorem override_precedence (w : World) (v : string) (Hv : v ≠ "") :
  (environ w !! "FOAMLIB_OPENFOAM_VERSION" = Some v →
   get_openfoam_version w = Some v)
  ∧ (env_unset w "FOAMLIB_OPENFOAM_VERSION" →
     environ w !! "OPENFOAM_VERSION" = Some v →
     get_openfoam_version w = Some v).
Proof.
  unfold get_openfoam_version. split.
  - intros Hf. assert (getenv_true w "FOAMLIB_OPENFOAM_VERSION" = Some v) as ->; [|done].
    by apply getenv_true_Some.
  - intros Hf%getenv_true_None Ho. rewrite Hf.
    assert (getenv_true w "OPENFOAM_VERSION" = Some v) as ->; [|done].
    by apply getenv_true_Some.
Qed.

(** With [FOAMLIB_OPENFOAM_VERSION=7] the resolved version is ["7"], even
    though the other override, the project version, the install root and the
    search path all point to other versions; without it, [OPENFOAM_VERSION=9]
    wins over the same signals. *)
Lemma override_precedence_witness :
  get_openfoam_version
    (mkWorld (<["FOAMLIB_OPENFOAM_VERSION" := "7"]>
              (<["OPENFOAM_VERSION" := "9"]>
               (<["WM_PROJECT_VERSION" := "10"]>
                (<["WM_PROJECT_DIR" := "/opt/openfoam11"]> ∅))))
             (λ prog, Some ("/usr/bin/" +:+ prog))) = Some "7"
  ∧ get_openfoam_version
      (mkWorld (<["OPENFOAM_VERSION" := "9"]>
                (<["WM_PROJECT_VERSION" := "10"]>
                 (<["WM_PROJECT_DIR" := "/opt/openfoam11"]> ∅)))
               (λ prog, Some ("/usr/bin/" +:+ prog))) = Some "9".
Proof.
  split.
  - refine (proj1 (override_precedence _ "7" _) _); [done | reflexivity].
  - refine (proj2 (override_precedence _ "9" _) _ _);
      [done | left; reflexivity | reflexivity].
Defined.

(** ** The prefix synthesizer *)

Lemma get_openfoam_version_None w :
  get_openfoam_version w = None → probe_versions w common_versions = None.
Proof.
  unfold get_openfoam_version.
  repeat (case_match; try discriminate). done.
Qed.

(** The second-chance pass over the defaults repeats probes that the
    resolver has already made: after an unresolved version it finds nothing. *)
Lemma try_defaults_unresolved w :
  get_openfoam_version w = None →
  try_defaults w None [ "2412"; "2406"; "11"; "10" ] = None.
Proof.
  intros Hprobe%get_openfoam_version_None.
  assert (∀ v, v ∈ common_versions → PyStr.truthy (which w ("openfoam" +:+ v)) = false)
    as Hno by by apply probe_versions_None.
  cbn [try_defaults].
  rewrite !Hno; [done | unfold common_versions; set_solver ..].
Qed.

Lemma get_openfoam_command_prefix_inactive w :
  is_in_openfoam_environment w = false →
  get_openfoam_command_prefix w =
    match get_openfoam_version w with
    | Some version => wrapper_or_docker w (Some version)
    | None =>
        if PyStr.truthy (which w "docker")
        then docker_prefix DEFAULT_OPENFOAM_VERSION
        else []
    end.
Proof.
  intros Hin. unfold get_openfoam_command_prefix. rewrite Hin.
  destruct (get_openfoam_version_truthy w) as [Ht|Hn].
  - rewrite Ht. cbn [negb]. by destruct (get_openfoam_version w).
  - rewrite Hn. cbn [PyStr.truthy negb]. by rewrite try_defaults_unresolved.
Qed.

(** C3. In container mode (the environment is not active, the wrapper of
    the resolved version, if any, does not resolve, and [docker] does) the
    prefix is exactly the eight tokens [docker run --rm -v ${PWD}:/workspace
    -w /workspace openfoam/openfoam<version>-paraview510], with the resolved
    version, or with ["2412"] when no version was resolved. *)
Theorem container_prefix_exact (w : World)
    (Hinactive : is_in_openfoam_environment w = false)
    (Hdocker : on_path w "docker") :
  match get_openfoam_version w with
  | Some version =>
      not_on_path w ("openfoam" +:+ version) →
      get_openfoam_command_prefix w =
        [ "docker"; "run"; "--rm"; "-v"; "${PWD}:/workspace"; "-w"; "/workspace";
          "openfoam/openfoam" +:+ version +:+ "-paraview510" ]
  | None =>
      (∀ version, version ∈ [ "2412"; "2406"; "11"; "10"; "9"; "8" ] →
                  not_on_path w ("openfoam" +:+ version))
      ∧ DEFAULT_OPENFOAM_VERSION = "2412"
      ∧ get_openfoam_command_prefix w =
          [ "docker"; "run"; "--rm"; "-v"; "${PWD}:/workspace"; "-w"; "/workspace";
            "openfoam/openfoam2412-paraview510" ]
  end.
Proof.
  rewrite get_openfoam_command_prefix_inactive by done.
  unfold on_path, not_on_path in *.
  destruct (get_openfoam_version w) as [version|] eqn:Hv.
  - intros Hw. unfold wrapper_or_docker. cbn [PyStr.format].
    by rewrite Hw, Hdocker.
  - rewrite Hdocker. split; [|done].
    by apply probe_versions_None, get_openfoam_version_None.
Qed.

Lemma container_prefix_exact_witness :
  get_openfoam_command_prefix docker_only =
    [ "docker"; "run"; "--rm"; "-v"; "${PWD}:/workspace"; "-w"; "/workspace";
      "openfoam/openfoam2412-paraview510" ]
  ∧ get_openfoam_command_prefix docker_with_version_9 =
    [ "docker"; "run"; "--rm"; "-v"; "${PWD}:/workspace"; "-w"; "/workspace";
      "openfoam/openfoam9-paraview510" ].
Proof.
  split.
  - refine (proj2 (proj2 (container_prefix_exact docker_only _ _))); reflexivity.
  - refine (container_prefix_exact docker_with_version_9 _ _ _); reflexivity.
Defined.

Lemma get_openfoam_command_prefix_shape w :
  empty_shape (get_openfoam_command_prefix w)
  ∨ wrapper_shape (get_openfoam_command_prefix w)
  ∨ container_shape (get_openfoam_command_prefix w).
Proof.
  destruct (is_in_openfoam_environment w) eqn:Hin.
  { left. unfold get_openfoam_command_prefix. by rewrite Hin. }
  rewrite get_openfoam_command_prefix_inactive by done.
  unfold wrapper_or_docker, docker_prefix.
  destruct (get_openfoam_version w) as [version|]; cbn [PyStr.format].
  - destruct (PyStr.truthy (which w ("openfoam" +:+ version))).
    + right; left. eexists. split; [done|]. apply startswith_app.
    + destruct (PyStr.truthy (which w "docker")); [|by left].
      right; right. by eexists.
  - destruct (PyStr.truthy (which w "docker")); [|by left].
    right; right. by eexists.
Qed.

(** C10. The prefix has exactly one of three shapes: empty, one token that
    starts with ["openfoam"], or the eight-token container invocation whose
    first seven tokens are [docker run --rm -v ${PWD}:/workspace -w
    /workspace].  In particular the test of the string branch of
    [wrap_openfoam_command] for a single token starting with ["openfoam"]
    succeeds on every prefix of one token. *)
Theorem prefix_three_shapes (w : World) :
  let prefix := get_openfoam_command_prefix w in
  ((empty_shape prefix ∧ ¬ wrapper_shape prefix ∧ ¬ container_shape prefix)
   ∨ (¬ empty_shape prefix ∧ wrapper_shape prefix ∧ ¬ container_shape prefix)
   ∨ (¬ empty_shape prefix ∧ ¬ wrapper_shape prefix ∧ container_shape prefix))
  ∧ (length prefix = 1 → is_wrapper_prefix prefix = Ret true).
Proof.
  cbv zeta. pose proof (get_openfoam_command_prefix_shape w) as Hshape.
  revert Hshape. generalize (get_openfoam_command_prefix w) as prefix.
  unfold empty_shape, wrapper_shape, container_shape.
  intros prefix [->|[(tok & -> & Htok)|(image & ->)]]; (split; [|intros Hlen]).
  - left. naive_solver.
  - done.
  - right; left. naive_solver.
  - unfold is_wrapper_prefix. cbn [length Nat.eqb getitem lookup list_lookup py_bind].
    by rewrite Htok.
  - right; right. naive_solver.
  - done.
Qed.

Lemma prefix_three_shapes_witness :
  is_wrapper_prefix (get_openfoam_command_prefix wrapper_2412_only) = Ret true.
Proof.
  refine (proj2 (prefix_three_shapes wrapper_2412_only) _). reflexivity.
Defined.

(** ** The command rewriter *)

(** The guard [not cmd or not should_wrap_command(cmd[0])] never indexes an
    empty sequence. *)
Lemma nothing_to_wrap_eq (cmd : list token) :
  nothing_to_wrap cmd =
    Ret (match head cmd with
         | None => true
         | Some first => negb (should_wrap_command first)
         end).
Proof. by destruct cmd. Qed.

Lemma head_fmap_Str (words : list string) : head (Str <$> words) = Str <$> head words.
Proof. by destruct words. Qed.

Lemma wrap_sequence_eq w (l : list token) :
  wrap_openfoam_command w (SeqCmd l) =
    Ret (match head l with
         | None => SeqCmd l
         | Some first =>
             if should_wrap_command first then
               match get_openfoam_command_prefix w with
               | [] => SeqCmd l
               | prefix => SeqCmd ((Str <$> prefix) ++ l)
               end
             else SeqCmd l
         end).
Proof.
  unfold wrap_openfoam_command. rewrite nothing_to_wrap_eq. cbn [py_bind].
  destruct (head l) as [first|]; [|done].
  destruct (should_wrap_command first); cbn [negb]; [|done].
  by destruct (get_openfoam_command_prefix w).
Qed.

(** Both renderings of the string branch put the space-joined prefix and a
    space in front of the whole string. *)
Lemma wrap_string_eq w (s : string) :
  wrap_openfoam_command w (StrCmd s) =
    Ret (match head (PyStr.split s) with
         | None => StrCmd s
         | Some word =>
             if should_wrap_command (Str word) then
               match get_openfoam_command_prefix w with
               | [] => StrCmd s
               | prefix => StrCmd (PyStr.join " " prefix +:+ " " +:+ s)
               end
             else StrCmd s
         end).
Proof.
  unfold wrap_openfoam_command.
  rewrite nothing_to_wrap_eq, head_fmap_Str. cbn [py_bind].
  destruct (head (PyStr.split s)) as [word|]; [|done]. cbn [fmap option_fmap option_map].
  destruct (should_wrap_command (Str word)); cbn [negb]; [|done].
  destruct (get_openfoam_command_prefix w) as [|tok [|tok' rest]]; [done| |done].
  unfold is_wrapper_prefix.
  cbn [length Nat.eqb getitem lookup list_lookup py_bind PyStr.join is_empty].
  by destruct (PyStr.startswith "openfoam" tok).
Qed.

(** C4. For a command given as a token sequence: an empty sequence, a
    sequence whose first token is not wrappable, and any sequence under an
    empty prefix are returned unchanged; otherwise the result is the prefix
    tokens followed by all the original tokens, in order and token by token. *)
Theorem wrap_sequence (w : World) (l : list token) :
  (l = [] ∨ (∃ first, head l = Some first ∧ should_wrap_command first = false)
   ∨ get_openfoam_command_prefix w = [] →
   wrap_openfoam_command w (SeqCmd l) = Ret (SeqCmd l))
  ∧ (∀ first, head l = Some first → should_wrap_command first = true →
     get_openfoam_command_prefix w ≠ [] →
     wrap_openfoam_command w (SeqCmd l) =
       Ret (SeqCmd ((Str <$> get_openfoam_command_prefix w) ++ l)))
  ∧ (get_openfoam_command_prefix w = [ "openfoam2412" ] →
     wrap_openfoam_command w (SeqCmd [ Str "blockMesh"; Str "-case"; Str "mycase" ]) =
       Ret (SeqCmd [ Str "openfoam2412"; Str "blockMesh"; Str "-case"; Str "mycase" ])).
Proof.
  split; [|split].
  - rewrite wrap_sequence_eq. intros [->|[(first & -> & ->)|Hp]]; [done..|].
    rewrite Hp. by repeat case_match.
  - intros first Hfirst Hwrap Hp. rewrite wrap_sequence_eq, Hfirst, Hwrap.
    by destruct (get_openfoam_command_prefix w).
  - intros Hp. rewrite wrap_sequence_eq, Hp. reflexivity.
Qed.

Lemma wrap_sequence_witness :
  wrap_openfoam_command wrapper_2412_only
    (SeqCmd [ Str "blockMesh"; Str "-case"; Str "mycase" ]) =
    Ret (SeqCmd [ Str "openfoam2412"; Str "blockMesh"; Str "-case"; Str "mycase" ])
  ∧ wrap_openfoam_command wrapper_2412_only (SeqCmd [ Str "ls"; Str "-la" ]) =
    Ret (SeqCmd [ Str "ls"; Str "-la" ])
  ∧ wrap_openfoam_command docker_only (SeqCmd [ PathLike "/opt/bin/topoSet"; Str "-dict" ]) =
    Ret (SeqCmd ((Str <$> get_openfoam_command_prefix docker_only)
                 ++ [ PathLike "/opt/bin/topoSet"; Str "-dict" ])).
Proof.
  split; [|split].
  - refine (proj2 (proj2 (wrap_sequence wrapper_2412_only [])) _). reflexivity.
  - refine (proj1 (wrap_sequence wrapper_2412_only _) _).
    right; left. exists (Str "ls"). split; reflexivity.
  - refine (proj1 (proj2 (wrap_sequence docker_only _)) (PathLike "/opt/bin/topoSet") _ _ _);
      [reflexivity | reflexivity | discriminate].
Defined.

(** C5. For a command given as a string whose first whitespace-delimited
    word is wrappable, under a non-empty prefix: with the single wrapper
    token the result is that token, a space and the whole original string;
    with the container tokens it is the tokens joined by spaces, a space and
    the whole original string.  A string without a wrappable first word, and
    any string under an empty prefix, is returned unchanged. *)
Theorem wrap_string (w : World) (s : string) :
  (∀ word, head (PyStr.split s) = Some word →
     should_wrap_command (Str word) = true →
     (∀ tok, get_openfoam_command_prefix w = [tok] →
        wrap_openfoam_command w (StrCmd s) = Ret (StrCmd (tok +:+ " " +:+ s)))
     ∧ (container_shape (get_openfoam_command_prefix w) →
        wrap_openfoam_command w (StrCmd s) =
          Ret (StrCmd (PyStr.join " " (get_openfoam_command_prefix w) +:+ " " +:+ s))))
  ∧ (head (PyStr.split s) = None
     ∨ (∃ word, head (PyStr.split s) = Some word
                ∧ should_wrap_command (Str word) = false)
     ∨ get_openfoam_command_prefix w = [] →
     wrap_openfoam_command w (StrCmd s) = Ret (StrCmd s)).
Proof.
  rewrite wrap_string_eq. split.
  - intros word -> ->. split.
    + by intros tok ->.
    + by intros (image & ->).
  - intros [-> | [(word & -> & ->) | ->]]; [done..|]. by repeat case_match.
Qed.

Lemma wrap_string_witness :
  wrap_openfoam_command wrapper_2412_only (StrCmd "checkMesh  -latestTime") =
    Ret (StrCmd "openfoam2412 checkMesh  -latestTime")
  ∧ wrap_openfoam_command docker_only (StrCmd "checkMesh  -latestTime") =
    Ret (StrCmd "docker run --rm -v ${PWD}:/workspace -w /workspace openfoam/openfoam2412-paraview510 checkMesh  -latestTime")
  ∧ wrap_openfoam_command (mkWorld {[ "FOAM_APP" := "/opt/of/applications" ]} (λ _, None))
      (StrCmd "checkMesh -latestTime") = Ret (StrCmd "checkMesh -latestTime").
Proof.
  split; [|split].
  - refine (proj1 (proj1 (wrap_string wrapper_2412_only _) "checkMesh" _ _)
              "openfoam2412" _); reflexivity.
  - refine (proj2 (proj1 (wrap_string docker_only _) "checkMesh" _ _) _);
      [reflexivity | reflexivity |].
    by exists "openfoam/openfoam2412-paraview510".
  - refine (proj2 (wrap_string _ _) _). right; right. reflexivity.
Defined.

(** ** Wrapping an already wrapped command *)

Lemma elem_of_OPENFOAM_COMMANDS s :
  s ∈ OPENFOAM_COMMANDS ↔ s ∈ OPENFOAM_COMMANDS_list.
Proof. unfold OPENFOAM_COMMANDS. by rewrite elem_of_list_to_set. Qed.

Ltac by_cases_on_commands H :=
  apply elem_of_OPENFOAM_COMMANDS in H; unfold OPENFOAM_COMMANDS_list in H;
  repeat (apply elem_of_cons in H as [H|H]; [try discriminate H|]);
  try (by apply elem_of_nil in H).

(** No recognized command starts with the letter of ["openfoam"]. *)
Lemma should_wrap_command_o r : should_wrap_command (Str (String "o" r)) = false.
Proof.
  unfold should_wrap_command. apply bool_decide_eq_false. intros H.
  by_cases_on_commands H.
Qed.

Lemma should_wrap_command_docker : should_wrap_command (Str "docker") = false.
Proof.
  unfold should_wrap_command. apply bool_decide_eq_false. intros H.
  by_cases_on_commands H.
Qed.

Lemma split_runs_cons c s :
  PyStr.split_runs (String c s) =
    if PyStr.isspace_char c
    then (EmptyString,
          match fst (PyStr.split_runs s) with
          | EmptyString => snd (PyStr.split_runs s)
          | run => run :: snd (PyStr.split_runs s)
          end)
    else (String c (fst (PyStr.split_runs s)), snd (PyStr.split_runs s)).
Proof.
  cbn [PyStr.split_runs]. destruct (PyStr.split_runs s) as [run runs].
  cbn [fst snd]. by destruct (PyStr.isspace_char c), run.
Qed.

Lemma split_eq s :
  PyStr.split s =
    match fst (PyStr.split_runs s) with
    | EmptyString => snd (PyStr.split_runs s)
    | run => run :: snd (PyStr.split_runs s)
    end.
Proof. unfold PyStr.split. by destruct (PyStr.split_runs s) as [[|c run] runs]. Qed.

(** A word followed by a space is the first run of the string. *)
Lemma split_runs_word word rest :
  PyStr.all_chars no_space word = true →
  fst (PyStr.split_runs (word +:+ String " " rest)) = word.
Proof.
  induction word as [|c word IH]; cbn [PyStr.all_chars].
  - intros _. by rewrite append_nil, split_runs_cons.
  - intros [Hc Hword]%andb_true_iff. rewrite append_cons, split_runs_cons.
    unfold no_space in Hc. apply negb_true_iff in Hc. rewrite Hc.
    cbn [fst]. by rewrite IH.
Qed.

Lemma head_split_word word rest :
  word ≠ "" → PyStr.all_chars no_space word = true →
  head (PyStr.split (word +:+ String " " rest)) = Some word.
Proof.
  intros Hne Hword. rewrite split_eq, split_runs_word by done.
  by destruct word.
Qed.

(** A string that starts with a non-space character has a first word that
    starts with that character. *)
Lemma head_split_nonspace c s :
  PyStr.isspace_char c = false →
  ∃ run, head (PyStr.split (String c s)) = Some (String c run).
Proof.
  intros Hc. rewrite split_eq, split_runs_cons, Hc. cbn [fst snd head]. eauto.
Qed.

(** The first word of a string-form command that carries a prefix is never a
    recognized command. *)
Lemma prefixed_string_not_wrappable w tok rest s word :
  get_openfoam_command_prefix w = tok :: rest →
  head (PyStr.split (PyStr.join " " (tok :: rest) +:+ " " +:+ s)) = Some word →
  should_wrap_command (Str word) = false.
Proof.
  intros Hp. pose proof (get_openfoam_command_prefix_shape w) as Hshape.
  rewrite Hp in Hshape.
  destruct Hshape as [He | [(tok' & [= -> ->] & Htok) | (image & [= -> ->])]].
  - discriminate He.
  - apply startswith_iff in Htok as [t ->]. cbn [PyStr.join].
    destruct (head_split_nonspace "o" ("penfoam" +:+ t +:+ " " +:+ s)) as [run Hrun];
      [done|].
    change (("openfoam" +:+ t) +:+ " " +:+ s)
      with (String "o" ("penfoam" +:+ t +:+ " " +:+ s)).
    rewrite Hrun. intros [= <-]. apply should_wrap_command_o.
  - cbn [PyStr.join].
    match goal with
    | |- context [ ("docker" +:+ " " +:+ ?x) +:+ ?y ] =>
        change (("docker" +:+ " " +:+ x) +:+ y)
          with ("docker" +:+ String " " (x +:+ y))
    end.
    rewrite head_split_word by done. intros [= <-].
    apply should_wrap_command_docker.
Qed.

(** Neither is the first token of a sequence-form command that carries one. *)
Lemma prefix_head_not_wrappable w tok rest :
  get_openfoam_command_prefix w = tok :: rest →
  should_wrap_command (Str tok) = false.
Proof.
  intros Hp. pose proof (get_openfoam_command_prefix_shape w) as Hshape.
  rewrite Hp in Hshape.
  destruct Hshape as [He | [(tok' & [= -> ->] & Htok) | (image & [= -> ->])]].
  - discriminate He.
  - apply startswith_iff in Htok as [t ->]. apply should_wrap_command_o.
  - apply should_wrap_command_docker.
Qed.

Lemma wrap_openfoam_command_stable w cmd once :
  wrap_openfoam_command w cmd = Ret once →
  wrap_openfoam_command w once = Ret once.
Proof.
  destruct cmd as [s|l].
  - rewrite wrap_string_eq.
    destruct (head (PyStr.split s)) as [word|] eqn:Hhead.
    2:{ intros [= <-]. by rewrite wrap_string_eq, Hhead. }
    destruct (should_wrap_command (Str word)) eqn:Hword.
    2:{ intros [= <-]. by rewrite wrap_string_eq, Hhead, Hword. }
    destruct (get_openfoam_command_prefix w) as [|tok rest] eqn:Hp.
    { intros [= <-]. by rewrite wrap_string_eq, Hhead, Hword, Hp. }
    intros Honce.
    assert (once = StrCmd (PyStr.join " " (tok :: rest) +:+ " " +:+ s)) as ->
      by congruence.
    rewrite wrap_string_eq.
    destruct (head (PyStr.split (PyStr.join " " (tok :: rest) +:+ " " +:+ s)))
      as [word'|] eqn:Hhead'; [|done].
    by rewrite (prefixed_string_not_wrappable w tok rest s word').
  - rewrite wrap_sequence_eq.
    destruct (head l) as [first|] eqn:Hhead.
    2:{ intros [= <-]. by rewrite wrap_sequence_eq, Hhead. }
    destruct (should_wrap_command first) eqn:Hfirst.
    2:{ intros [= <-]. by rewrite wrap_sequence_eq, Hhead, Hfirst. }
    destruct (get_openfoam_command_prefix w) as [|tok rest] eqn:Hp.
    { intros [= <-]. by rewrite wrap_sequence_eq, Hhead, Hfirst, Hp. }
    intros Honce.
    assert (once = SeqCmd (Str tok :: (Str <$> rest) ++ l)) as ->
      by (injection Honce as <-; reflexivity).
    rewrite wrap_sequence_eq. cbn [head].
    by rewrite (prefix_head_not_wrappable w tok rest).
Qed.

(** C9, as stated, fails: there is no environment with a non-empty prefix and
    no recognized command for which a second application of
    [wrap_openfoam_command] changes the once-wrapped command. *)
Lemma rewrap_never_double_prefixes :
  ¬ ∃ (w : World) (cmd once twice : command),
      get_openfoam_command_prefix w ≠ []
      ∧ names_recognized_command cmd
      ∧ wrap_openfoam_command w cmd = Ret once
      ∧ wrap_openfoam_command w once = Ret twice
      ∧ twice ≠ once.
Proof.
  intros (w & cmd & once & twice & _ & _ & Honce & Htwice & Hne).
  apply wrap_openfoam_command_stable in Honce. congruence.
Qed.

(** C9, amended. [wrap_openfoam_command] is idempotent: in every environment
    and search-path state, wrapping the result of a wrap returns it as it is,
    because the first token of a non-empty prefix ([openfoam<version>] or
    [docker]) is not a recognized command. *)
Theorem wrap_idempotent (w : World) (cmd once : command)
    (Honce : wrap_openfoam_command w cmd = Ret once) :
  wrap_openfoam_command w once = Ret once
  ∧ (once ≠ cmd → ¬ names_recognized_command once).
Proof.
  split; [by eapply wrap_openfoam_command_stable|].
  intros Hne Hrec. destruct cmd as [s|l].
  - rewrite wrap_string_eq in Honce.
    destruct (head (PyStr.split s)) as [word|]; [|congruence].
    destruct (should_wrap_command (Str word)); [|congruence].
    destruct (get_openfoam_command_prefix w) as [|tok rest] eqn:Hp; [congruence|].
    assert (once = StrCmd (PyStr.join " " (tok :: rest) +:+ " " +:+ s)) as ->
      by congruence.
    destruct Hrec as (word' & Hhead & Hwrap).
    by rewrite (prefixed_string_not_wrappable w tok rest s word') in Hwrap.
  - rewrite wrap_sequence_eq in Honce.
    destruct (head l) as [first|]; [|congruence].
    destruct (should_wrap_command first); [|congruence].
    destruct (get_openfoam_command_prefix w) as [|tok rest] eqn:Hp; [congruence|].
    assert (once = SeqCmd (Str tok :: (Str <$> rest) ++ l)) as ->
      by (injection Honce as <-; reflexivity).
    destruct Hrec as (first' & [= <-] & Hwrap).
    by rewrite (prefix_head_not_wrappable w tok rest) in Hwrap.
Qed.

Lemma wrap_idempotent_witness :
  wrap_openfoam_command wrapper_2412_only
    (SeqCmd [ Str "openfoam2412"; Str "blockMesh"; Str "-case"; Str "mycase" ]) =
    Ret (SeqCmd [ Str "openfoam2412"; Str "blockMesh"; Str "-case"; Str "mycase" ])
  ∧ wrap_openfoam_command docker_only
      (StrCmd "docker run --rm -v ${PWD}:/workspace -w /workspace openfoam/openfoam2412-paraview510 blockMesh") =
    Ret (StrCmd "docker run --rm -v ${PWD}:/workspace -w /workspace openfoam/openfoam2412-paraview510 blockMesh").
Proof.
  split.
  - refine (proj1 (wrap_idempotent wrapper_2412_only
                     (SeqCmd [ Str "blockMesh"; Str "-case"; Str "mycase" ]) _ _)).
    reflexivity.
  - refine (proj1 (wrap_idempotent docker_only (StrCmd "blockMesh") _ _)).
    reflexivity.
Defined.

(** ** No exception *)

Lemma wrap_openfoam_command_returns w cmd : ∃ r, wrap_openfoam_command w cmd = Ret r.
Proof.
  destruct cmd as [s|l]; [rewrite wrap_string_eq | rewrite wrap_sequence_eq]; eauto.
Qed.

Lemma wrap_openfoam_command_no_prefix w cmd :
  get_openfoam_command_prefix w = [] → wrap_openfoam_command w cmd = Ret cmd.
Proof.
  intros Hp.
  destruct cmd as [s|l]; [rewrite wrap_string_eq | rewrite wrap_sequence_eq];
    rewrite Hp; by repeat case_match.
Qed.

(** C8. Nothing raises for an unresolved version or a missing executable:
    [wrap_openfoam_command] always returns a command, and returns its
    argument when the prefix is empty; [get_openfoam_version] returns [None]
    when no override is set, the environment is not active and no wrapper
    resolves; [get_openfoam_command_prefix] returns the empty list when
    neither the wrapper of the resolved version nor [docker] resolves. *)
Theorem soft_fail_forward (w : World) :
  (∀ cmd e, wrap_openfoam_command w cmd ≠ Raise e)
  ∧ (∀ cmd, get_openfoam_command_prefix w = [] →
            wrap_openfoam_command w cmd = Ret cmd)
  ∧ (env_unset w "FOAMLIB_OPENFOAM_VERSION" → env_unset w "OPENFOAM_VERSION" →
     is_in_openfoam_environment w = false →
     (∀ version, version ∈ [ "2412"; "2406"; "11"; "10"; "9"; "8" ] →
                 not_on_path w ("openfoam" +:+ version)) →
     get_openfoam_version w = None)
  ∧ (is_in_openfoam_environment w = false →
     (∀ version, get_openfoam_version w = Some version →
                 not_on_path w ("openfoam" +:+ version)) →
     not_on_path w "docker" →
     get_openfoam_command_prefix w = []).
Proof.
  split; [|split; [|split]].
  - intros cmd e. destruct (wrap_openfoam_command_returns w cmd) as [r ->]. discriminate.
  - intros cmd. apply wrap_openfoam_command_no_prefix.
  - intros Hf%getenv_true_None Ho%getenv_true_None Hin Hprobe.
    unfold get_openfoam_version, version_from_environment. rewrite Hf, Ho, Hin.
    by apply probe_versions_None.
  - intros Hin Hwrapper Hdocker. rewrite get_openfoam_command_prefix_inactive by done.
    unfold not_on_path in *. unfold wrapper_or_docker.
    destruct (get_openfoam_version w) as [version|]; cbn [PyStr.format].
    + by rewrite (Hwrapper version), Hdocker.
    + by rewrite Hdocker.
Qed.

Lemma soft_fail_forward_witness :
  get_openfoam_version nothing_installed = None
  ∧ get_openfoam_command_prefix nothing_installed = []
  ∧ wrap_openfoam_command nothing_installed (SeqCmd [ Str "blockMesh" ]) =
    Ret (SeqCmd [ Str "blockMesh" ]).
Proof.
  destruct (soft_fail_forward nothing_installed) as (_ & Hwrap & Hversion & Hprefix).
  split; [|split].
  - apply Hversion; [by left | by left | reflexivity | reflexivity].
  - apply Hprefix; [reflexivity | discriminate | reflexivity].
  - apply Hwrap. apply Hprefix; [reflexivity | discriminate | reflexivity].
Defined.


(** ** The version in the install-root path *)

Lemma slice_from_openfoam t : PyStr.slice_from 8 ("openfoam" +:+ t) = t.
Proof. exact (slice_from_app "openfoam" t). Qed.

Lemma scan_parts_hit part rest version :
  carries_version part version → scan_parts (part :: rest) = Some version.
Proof.
  intros (-> & Hne & Hlike). cbn [scan_parts]. cbv zeta.
  rewrite startswith_app, !slice_from_openfoam.
  assert ((8 <? PyStr.len ("openfoam" +:+ version)) = true) as ->
    by by destruct version.
  cbn [andb].
  assert (PyStr.isdigit version || PyStr.contains "." version = true) as ->; [|done].
  apply orb_true_iff. exact Hlike.
Qed.

Lemma scan_parts_miss part rest :
  (∀ version, ¬ carries_version part version) →
  scan_parts (part :: rest) = scan_parts rest.
Proof.
  intros Hmiss. cbn [scan_parts]. cbv zeta.
  destruct (PyStr.startswith "openfoam" part) eqn:Hpre; cbn [andb]; [|done].
  destruct (8 <? PyStr.len part) eqn:Hlen; cbn [andb]; [|done].
  apply startswith_iff in Hpre as [t ->]. rewrite !slice_from_openfoam.
  destruct (PyStr.isdigit t || PyStr.contains "." t) eqn:Hok; [|done].
  destruct (Hmiss t). split; [done|]. split.
  - intros ->. discriminate Hlen.
  - by apply orb_true_iff.
Qed.

Lemma scan_parts_first before part after version :
  (∀ p v, p ∈ before → ¬ carries_version p v) →
  carries_version part version →
  scan_parts (before ++ part :: after) = Some version.
Proof.
  intros Hbefore Hpart. induction before as [|b before IH]; cbn [app].
  - by apply scan_parts_hit.
  - rewrite scan_parts_miss.
    + apply IH. intros p v Hp. apply Hbefore. by right.
    + intros v. apply Hbefore. left.
Qed.

Lemma scan_parts_none path_parts :
  (∀ p v, p ∈ path_parts → ¬ carries_version p v) → scan_parts path_parts = None.
Proof.
  induction path_parts as [|b rest IH]; intros Hnone; [done|].
  rewrite scan_parts_miss.
  - apply IH. intros p v Hp. apply Hnone. by right.
  - intros v. apply Hnone. left.
Qed.

(** C7. With no override and no project version set and the environment
    active, the version is looked for in the components of the
    [WM_PROJECT_DIR] path: the first component made of ["openfoam"] and a
    non-empty suffix that is all digits or contains a decimal point gives the
    version; when no component qualifies the resolver goes on to probe the
    search path.  For [/opt/openfoam10/platforms/...] the version is ["10"],
    and the suffix ["-dev"] is rejected. *)
Theorem version_from_install_root (w : World) (foam_dir : string)
    (Hlib : env_unset w "FOAMLIB_OPENFOAM_VERSION")
    (Hgen : env_unset w "OPENFOAM_VERSION")
    (Hproj : env_unset w "WM_PROJECT_VERSION")
    (Hactive : is_in_openfoam_environment w = true)
    (Hdir : environ w !! "WM_PROJECT_DIR" = Some foam_dir)
    (Hnonempty : foam_dir ≠ "") :
  (∀ before part after version,
     PosixPath.parts foam_dir = before ++ part :: after →
     (∀ p v, p ∈ before → ¬ carries_version p v) →
     carries_version part version →
     get_openfoam_version w = Some version)
  ∧ ((∀ p v, p ∈ PosixPath.parts foam_dir → ¬ carries_version p v) →
     get_openfoam_version w = probe_versions w common_versions)
  ∧ (foam_dir = "/opt/openfoam10/platforms/linux64GccDPInt32Opt" →
     get_openfoam_version w = Some "10")
  ∧ (∀ p, ¬ carries_version p "-dev").
Proof.
  assert (get_openfoam_version w =
            match scan_parts (PosixPath.parts foam_dir) with
            | Some version => Some version
            | None => probe_versions w common_versions
            end) as ->.
  { unfold get_openfoam_version, version_from_environment.
    apply getenv_true_None in Hlib, Hgen, Hproj. rewrite Hlib, Hgen, Hproj, Hactive.
    assert (getenv_true w "WM_PROJECT_DIR" = Some foam_dir) as ->
      by by apply getenv_true_Some.
    done. }
  split; [|split; [|split]].
  - intros before part after version -> Hbefore Hpart.
    by rewrite (scan_parts_first before part after version).
  - intros Hnone. by rewrite scan_parts_none.
  - intros ->. reflexivity.
  - intros p (_ & _ & [Hd|Hc]); discriminate.
Qed.

Lemma version_from_install_root_witness :
  get_openfoam_version sourced_openfoam10 = Some "10"
  ∧ get_openfoam_version sourced_openfoam_dev = Some "9".
Proof.
  split.
  - refine (proj1 (proj2 (proj2
      (version_from_install_root sourced_openfoam10
         "/opt/openfoam10/platforms/linux64GccDPInt32Opt" _ _ _ _ _ _))) _);
      first [ by left | reflexivity | discriminate ].
  - refine (eq_trans (proj1 (proj2
      (version_from_install_root sourced_openfoam_dev
         "/opt/openfoam-dev/OpenFOAM-dev" _ _ _ _ _ _)) _) _);
      [by left | by left | by left | reflexivity | reflexivity | discriminate | | reflexivity].
    intros p v Hp (-> & Hne & Hlike).
    change (PosixPath.parts "/opt/openfoam-dev/OpenFOAM-dev")
      with [ "/"; "opt"; "openfoam-dev"; "OpenFOAM-dev" ] in Hp.
    repeat (apply elem_of_cons in Hp as [Hp|Hp]; [cbv in Hp; try discriminate Hp|]).
    + injection Hp as Hv. subst v. destruct Hlike; discriminate.
    + by apply elem_of_nil in Hp.
Defined.

(** ** Basenames *)

Lemma split_on_nonempty sep s : PyStr.split_on sep s ≠ [].
Proof.
  destruct s as [|c s]; cbn [PyStr.split_on]; [done|].
  case_decide; [done|]. by destruct (PyStr.split_on sep s).
Qed.

Lemma split_on_app sep a b :
  PyStr.split_on sep (a +:+ String sep b) = PyStr.split_on sep a ++ PyStr.split_on sep b.
Proof.
  induction a as [|c a IH].
  - rewrite append_nil. cbn [PyStr.split_on]. by rewrite decide_True.
  - rewrite append_cons. cbn [PyStr.split_on]. case_decide; [by rewrite IH|].
    rewrite IH. pose proof (split_on_nonempty sep a).
    by destruct (PyStr.split_on sep a).
Qed.

Lemma split_on_no_sep name :
  PyStr.all_chars no_slash name = true → PyStr.split_on "/" name = [name].
Proof.
  induction name as [|c name IH]; cbn [PyStr.all_chars PyStr.split_on]; [done|].
  intros [Hc Hname]%andb_true_iff. unfold no_slash in Hc.
  apply negb_true_iff, bool_decide_eq_false in Hc.
  rewrite decide_False by done. by rewrite IH.
Qed.

(** What is left of [dir/name] after the root is [name] itself or still has
    the form [dir'/name]. *)
Lemma splitroot_dir dir c name :
  c ≠ "/"%char →
  let rel := snd (PosixPath.splitroot (dir +:+ String "/" (String c name))) in
  rel = String c name ∨ ∃ dir', rel = dir' +:+ String "/" (String c name).
Proof.
  intros Hc. unfold PosixPath.splitroot, PosixPath.sep.
  destruct dir as [|c1 dir]; [|destruct dir as [|c2 dir]; [|destruct dir as [|c3 dir]]];
    rewrite ?append_cons, ?append_nil;
    cbn [PyStr.slice PyStr.slice_from PyStr.slice_to Nat.sub];
    repeat (case_bool_decide; cbn [negb orb snd]); simplify_eq; eauto.
  all: right;
    first [ by eexists (String _ EmptyString)
          | by eexists (String _ (String _ EmptyString))
          | by eexists (String _ (String _ (String _ _)))
          | by eexists (String _ (String _ _))
          | by eexists (String _ _) ].
Qed.

Lemma name_bare c name :
  PyStr.all_chars no_slash (String c name) = true →
  String c name ≠ "." →
  PosixPath.name (String c name) = String c name.
Proof.
  intros Hname Hdot. unfold PosixPath.name, PosixPath.tail.
  assert (PosixPath.splitroot (String c name) = ("", String c name)) as ->.
  { unfold PosixPath.splitroot, PosixPath.sep.
    cbn [PyStr.all_chars] in Hname. apply andb_true_iff in Hname as [Hc _].
    unfold no_slash in Hc. apply negb_true_iff, bool_decide_eq_false in Hc.
    cbn [PyStr.slice PyStr.slice_from PyStr.slice_to Nat.sub].
    rewrite bool_decide_eq_false_2; [done|]. intros [= ->]. done. }
  cbn [snd]. rewrite (split_on_no_sep _ Hname). cbn [List.filter].
  unfold PosixPath.keep_component.
  rewrite !bool_decide_eq_false_2 by done. reflexivity.
Qed.

(** The basename of [dir/name] is [name]. *)
Lemma name_dir dir c name :
  PyStr.all_chars no_slash (String c name) = true →
  String c name ≠ "." →
  PosixPath.name (dir +:+ "/" +:+ String c name) = String c name.
Proof.
  intros Hname Hdot. unfold PosixPath.name, PosixPath.tail.
  assert (c ≠ "/"%char) as Hc.
  { cbn [PyStr.all_chars] in Hname. apply andb_true_iff in Hname as [Hc _].
    unfold no_slash in Hc. by apply negb_true_iff, bool_decide_eq_false in Hc. }
  assert (PosixPath.keep_component (String c name) = true) as Hkeep.
  { unfold PosixPath.keep_component. by rewrite !bool_decide_eq_false_2 by done. }
  change (dir +:+ "/" +:+ String c name) with (dir +:+ String "/" (String c name)).
  destruct (splitroot_dir dir c name Hc) as [-> | [dir' ->]].
  - rewrite (split_on_no_sep _ Hname). cbn [List.filter]. by rewrite Hkeep.
  - rewrite split_on_app, (split_on_no_sep _ Hname).
    rewrite List.filter_app. cbn [List.filter]. rewrite Hkeep.
    apply List.last_last.
Qed.

Lemma recognized_name_plain name :
  name ∈ OPENFOAM_COMMANDS →
  ∃ c name', name = String c name'
             ∧ PyStr.all_chars no_slash name = true ∧ name ≠ ".".
Proof.
  intros H. by_cases_on_commands H; subst name; eexists _, _; done.
Qed.

(** C1, as stated, fails: a plain string with a directory prefix is not
    recognized, although its basename is a recognized command. *)
Lemma plain_string_with_directory_not_wrapped :
  "blockMesh" ∈ OPENFOAM_COMMANDS
  ∧ should_wrap_command (Str "blockMesh") = true
  ∧ should_wrap_command (Str "/usr/bin/blockMesh") = false.
Proof.
  split; [|split; reflexivity].
  apply elem_of_OPENFOAM_COMMANDS, list_elem_of_lookup. by exists 0.
Qed.

(** C1, amended. A plain string is tested whole and a path-like object by
    its basename: a recognized name is wrappable as a plain string and as a
    path-like object, the latter under any directory prefix; a token whose
    name (the whole string, or the basename of the path-like object) is not
    recognized is not wrappable. *)
Theorem should_wrap_command_by_form :
  (∀ s, should_wrap_command (Str s) = true ↔ s ∈ OPENFOAM_COMMANDS)
  ∧ (∀ p, should_wrap_command (PathLike p) = true
          ↔ PosixPath.name p ∈ OPENFOAM_COMMANDS)
  ∧ (∀ name dir, name ∈ OPENFOAM_COMMANDS →
       should_wrap_command (Str name) = true
       ∧ should_wrap_command (PathLike name) = true
       ∧ should_wrap_command (PathLike (dir +:+ "/" +:+ name)) = true)
  ∧ (∀ cmd, cmd_name cmd ∉ OPENFOAM_COMMANDS → should_wrap_command cmd = false).
Proof.
  unfold should_wrap_command. split; [|split; [|split]].
  - intros s. apply bool_decide_eq_true.
  - intros p. apply bool_decide_eq_true.
  - intros name dir Hname.
    destruct (recognized_name_plain name Hname) as (c & name' & -> & Hplain & Hdot).
    cbn [cmd_name]. rewrite name_bare, name_dir by done.
    by rewrite bool_decide_eq_true_2.
  - intros cmd Hcmd. by apply bool_decide_eq_false.
Qed.

Lemma should_wrap_command_by_form_witness :
  should_wrap_command (Str "blockMesh") = true
  ∧ should_wrap_command (PathLike "blockMesh") = true
  ∧ should_wrap_command (PathLike "/usr/bin/blockMesh") = true
  ∧ should_wrap_command (PathLike "/usr/bin/ls") = false.
Proof.
  destruct should_wrap_command_by_form as (_ & _ & Hrec & Hnot).
  assert ("blockMesh" ∈ OPENFOAM_COMMANDS) as Hin.
  { apply elem_of_OPENFOAM_COMMANDS, list_elem_of_lookup. by exists 0. }
  destruct (Hrec "blockMesh" "/usr/bin" Hin) as (Hs & Hp & Hd).
  split; [exact Hs | split; [exact Hp | split; [exact Hd |]]].
  apply Hnot. intros H. apply elem_of_OPENFOAM_COMMANDS in H.
  unfold OPENFOAM_COMMANDS_list in H.
  repeat (apply elem_of_cons in H as [H|H]; [discriminate H|]).
  by apply elem_of_nil in H.
Defined.

(** * Further properties *)

(** ** Where a resolved version comes from *)

(** X1. A resolved version is never empty and always has a source: the value
    of one of the two override variables, the value of [WM_PROJECT_VERSION]
    or a version-like suffix of a component of [WM_PROJECT_DIR] (both only in
    an active environment), or one of the six known versions whose wrapper
    resolves on the search path. *)
Theorem resolved_version_provenance (w : World) (version : string)
    (Hresolved : get_openfoam_version w = Some version) :
  version ≠ ""
  ∧ (environ w !! "FOAMLIB_OPENFOAM_VERSION" = Some version
     ∨ environ w !! "OPENFOAM_VERSION" = Some version
     ∨ (is_in_openfoam_environment w = true
        ∧ environ w !! "WM_PROJECT_VERSION" = Some version)
     ∨ (is_in_openfoam_environment w = true
        ∧ ∃ foam_dir, environ w !! "WM_PROJECT_DIR" = Some foam_dir
                      ∧ ("openfoam" +:+ version) ∈ PosixPath.parts foam_dir
                      ∧ version_like version)
     ∨ (version ∈ [ "2412"; "2406"; "11"; "10"; "9"; "8" ]
        ∧ on_path w ("openfoam" +:+ version))).
Proof.
  split; [by eapply get_openfoam_version_nonempty|].
  revert Hresolved. unfold get_openfoam_version, version_from_environment.
  destruct (getenv_true w "FOAMLIB_OPENFOAM_VERSION") eqn:H1.
  { intros [= ->]. left. by apply getenv_true_Some in H1 as [? _]. }
  destruct (getenv_true w "OPENFOAM_VERSION") eqn:H2.
  { intros [= ->]. right; left. by apply getenv_true_Some in H2 as [? _]. }
  assert (probe_versions w common_versions = Some version →
          version ∈ [ "2412"; "2406"; "11"; "10"; "9"; "8" ]
          ∧ on_path w ("openfoam" +:+ version)) as Hprobe
    by apply probe_versions_Some.
  destruct (is_in_openfoam_environment w); [|by do 4 right; apply Hprobe].
  destruct (getenv_true w "WM_PROJECT_VERSION") eqn:H3.
  { intros [= ->]. do 2 right; left. by apply getenv_true_Some in H3 as [? _]. }
  destruct (getenv_true w "WM_PROJECT_DIR") as [foam_dir|] eqn:H4;
    [|by do 4 right; apply Hprobe].
  destruct (scan_parts (PosixPath.parts foam_dir)) eqn:Hscan;
    [|by do 4 right; apply Hprobe].
  intros [= ->]. do 3 right; left. split; [done|]. exists foam_dir.
  apply getenv_true_Some in H4 as [? _].
  apply scan_parts_Some in Hscan as (? & _ & ?). done.
Qed.

Lemma resolved_version_provenance_witness :
  "7" ≠ ""
  ∧ (environ pinned_7_without_wrapper !! "FOAMLIB_OPENFOAM_VERSION" = Some "7"
     ∨ environ pinned_7_without_wrapper !! "OPENFOAM_VERSION" = Some "7"
     ∨ (is_in_openfoam_environment pinned_7_without_wrapper = true
        ∧ environ pinned_7_without_wrapper !! "WM_PROJECT_VERSION" = Some "7")
     ∨ (is_in_openfoam_environment pinned_7_without_wrapper = true
        ∧ ∃ foam_dir,
            environ pinned_7_without_wrapper !! "WM_PROJECT_DIR" = Some foam_dir
            ∧ ("openfoam" +:+ "7") ∈ PosixPath.parts foam_dir
            ∧ version_like "7")
     ∨ ("7" ∈ [ "2412"; "2406"; "11"; "10"; "9"; "8" ]
        ∧ on_path pinned_7_without_wrapper ("openfoam" +:+ "7"))).
Proof.
  apply (resolved_version_provenance pinned_7_without_wrapper "7"). reflexivity.
Defined.

(** X2. With no override set, [WM_PROJECT_VERSION] decides the version
    exactly in an active environment: there its non-empty value is the
    result, whatever [WM_PROJECT_DIR] says; in an inactive environment it is
    not read and the result is that of the search-path probe. *)
Theorem project_version_only_when_active (w : World)
    (Hlib : env_unset w "FOAMLIB_OPENFOAM_VERSION")
    (Hgen : env_unset w "OPENFOAM_VERSION") :
  (is_in_openfoam_environment w = true →
   ∀ version, environ w !! "WM_PROJECT_VERSION" = Some version → version ≠ "" →
     get_openfoam_version w = Some version)
  ∧ (is_in_openfoam_environment w = false →
     get_openfoam_version w = probe_versions w common_versions).
Proof.
  apply getenv_true_None in Hlib, Hgen.
  unfold get_openfoam_version, version_from_environment. rewrite Hlib, Hgen.
  split; intros ->; [|done].
  intros version Hv Hne.
  assert (getenv_true w "WM_PROJECT_VERSION" = Some version) as ->; [|done].
  by apply getenv_true_Some.
Qed.

Lemma project_version_only_when_active_witness :
  get_openfoam_version sourced_with_project_version = Some "v2312"
  ∧ get_openfoam_version wrappers_11_and_9 = Some "11".
Proof.
  split.
  - refine (proj1 (project_version_only_when_active sourced_with_project_version _ _)
              _ "v2312" _ _);
      first [ by left | reflexivity | discriminate ].
  - refine (eq_trans (proj2 (project_version_only_when_active wrappers_11_and_9 _ _) _) _);
      first [ by left | reflexivity ].
Defined.

(** ** The search-path probe *)

Lemma probe_versions_first w versions version :
  probe_versions w versions = Some version ↔ first_resolvable w versions version.
Proof.
  unfold first_resolvable, on_path, not_on_path. split.
  - induction versions as [|v rest IH]; cbn [probe_versions]; [discriminate|].
    destruct (PyStr.truthy (which w ("openfoam" +:+ v))) eqn:Hv.
    + intros [= ->]. exists [], rest. split; [done|]. split; [|done].
      by intros u ?%elem_of_nil.
    + intros (before & after & -> & Hbefore & Hhit)%IH.
      exists (v :: before), after. split; [done|]. split; [|done].
      intros u [->|?]%elem_of_cons; auto.
  - intros (before & after & -> & Hbefore & Hhit).
    induction before as [|b before IH]; cbn [app probe_versions].
    + by rewrite Hhit.
    + rewrite (Hbefore b) by left. apply IH. intros u ?. apply Hbefore. by right.
Qed.

(** X3. With no override set and the environment inactive, the resolved
    version is the first of 2412, 2406, 11, 10, 9, 8 whose wrapper
    [openfoam<version>] resolves on the search path, and there is none
    exactly when no such wrapper resolves. *)
Theorem probed_version_is_first_installed (w : World)
    (Hlib : env_unset w "FOAMLIB_OPENFOAM_VERSION")
    (Hgen : env_unset w "OPENFOAM_VERSION")
    (Hinactive : is_in_openfoam_environment w = false) :
  (∀ version,
     get_openfoam_version w = Some version ↔
     first_resolvable w [ "2412"; "2406"; "11"; "10"; "9"; "8" ] version)
  ∧ (get_openfoam_version w = None ↔
     ∀ version, version ∈ [ "2412"; "2406"; "11"; "10"; "9"; "8" ] →
                not_on_path w ("openfoam" +:+ version)).
Proof.
  assert (get_openfoam_version w = probe_versions w common_versions) as ->.
  { apply getenv_true_None in Hlib, Hgen.
    unfold get_openfoam_version, version_from_environment.
    by rewrite Hlib, Hgen, Hinactive. }
  split.
  - intros version. apply probe_versions_first.
  - apply probe_versions_None.
Qed.

Lemma probed_version_is_first_installed_witness :
  get_openfoam_version wrappers_11_and_9 = Some "11".
Proof.
  refine (proj2 (proj1 (probed_version_is_first_installed wrappers_11_and_9 _ _ _) "11") _);
    [by left | by left | reflexivity |].
  exists [ "2412"; "2406" ], [ "10"; "9"; "8" ]. split; [reflexivity|].
  split; [|reflexivity].
  intros u Hu. apply elem_of_cons in Hu as [->|Hu]; [reflexivity|].
  apply elem_of_cons in Hu as [->|Hu]; [reflexivity|].
  by apply elem_of_nil in Hu.
Defined.

(** X4. The second-chance pass over 2412, 2406, 11, 10 in
    [get_openfoam_command_prefix] never adopts a version: it runs only after
    the resolver returned [None], and then none of these wrappers resolves.
    With an unresolved version the prefix is therefore never a wrapper. *)
Theorem second_chance_never_adopts (w : World)
    (Hunresolved : get_openfoam_version w = None) :
  try_defaults w (get_openfoam_version w) [ "2412"; "2406"; "11"; "10" ] = None
  ∧ ¬ wrapper_shape (get_openfoam_command_prefix w).
Proof.
  split.
  - rewrite Hunresolved. by apply try_defaults_unresolved.
  - intros (tok & Hp & _). revert Hp.
    destruct (is_in_openfoam_environment w) eqn:Hin.
    + unfold get_openfoam_command_prefix. by rewrite Hin.
    + rewrite get_openfoam_command_prefix_inactive, Hunresolved by done.
      by destruct (PyStr.truthy (which w "docker")).
Qed.

Lemma second_chance_never_adopts_witness :
  ¬ wrapper_shape (get_openfoam_command_prefix docker_only).
Proof.
  refine (proj2 (second_chance_never_adopts docker_only _)). reflexivity.
Defined.

(** ** What a prefix says about the world *)

(** The five ways out of [get_openfoam_command_prefix] in an inactive
    environment. *)
Lemma get_openfoam_command_prefix_cases w :
  is_in_openfoam_environment w = false →
  (∃ version, get_openfoam_version w = Some version
              ∧ on_path w ("openfoam" +:+ version)
              ∧ get_openfoam_command_prefix w = [ "openfoam" +:+ version ])
  ∨ (∃ version, get_openfoam_version w = Some version
                ∧ not_on_path w ("openfoam" +:+ version)
                ∧ on_path w "docker"
                ∧ get_openfoam_command_prefix w = docker_prefix version)
  ∨ (∃ version, get_openfoam_version w = Some version
                ∧ not_on_path w ("openfoam" +:+ version)
                ∧ not_on_path w "docker"
                ∧ get_openfoam_command_prefix w = [])
  ∨ (get_openfoam_version w = None ∧ on_path w "docker"
     ∧ get_openfoam_command_prefix w = docker_prefix DEFAULT_OPENFOAM_VERSION)
  ∨ (get_openfoam_version w = None ∧ not_on_path w "docker"
     ∧ get_openfoam_command_prefix w = []).
Proof.
  intros Hin. rewrite get_openfoam_command_prefix_inactive by done.
  unfold wrapper_or_docker, on_path, not_on_path.
  destruct (get_openfoam_version w) as [version|]; cbn [PyStr.format].
  - destruct (PyStr.truthy (which w ("openfoam" +:+ version))) eqn:Hw.
    { left. by exists version. }
    destruct (PyStr.truthy (which w "docker")) eqn:Hd.
    + right; left. by exists version.
    + do 2 right; left. by exists version.
  - destruct (PyStr.truthy (which w "docker")) eqn:Hd.
    + do 3 right; left. done.
    + do 4 right. done.
Qed.

(** X5. A one-token prefix names a program that resolves on the search
    path, and that program is the wrapper of the resolved version: a version
    pinned by a variable is never replaced by another installed wrapper. *)
Theorem wrapper_prefix_sound (w : World) (tok : string)
    (Hprefix : get_openfoam_command_prefix w = [tok]) :
  is_in_openfoam_environment w = false
  ∧ on_path w tok
  ∧ ∃ version, get_openfoam_version w = Some version ∧ tok = "openfoam" +:+ version.
Proof.
  destruct (is_in_openfoam_environment w) eqn:Hin.
  { unfold get_openfoam_command_prefix in Hprefix. by rewrite Hin in Hprefix. }
  split; [done|].
  destruct (get_openfoam_command_prefix_cases w Hin)
    as [(v & Hv & Hw & Hp) | [(v & _ & _ & _ & Hp) | [(v & _ & _ & _ & Hp)
        | [(_ & _ & Hp) | (_ & _ & Hp)]]]];
    rewrite Hp in Hprefix; try discriminate Hprefix.
  injection Hprefix as <-. split; [done|]. by exists v.
Qed.

Lemma wrapper_prefix_sound_witness :
  is_in_openfoam_environment wrappers_11_and_9 = false
  ∧ on_path wrappers_11_and_9 "openfoam11"
  ∧ ∃ version, get_openfoam_version wrappers_11_and_9 = Some version
               ∧ "openfoam11" = "openfoam" +:+ version.
Proof.
  apply (wrapper_prefix_sound wrappers_11_and_9 "openfoam11"). reflexivity.
Defined.

(** X6. A container prefix is produced only when [docker] resolves on the
    search path and the wrapper of the resolved version does not; its image
    carries the resolved version, or 2412 when there is none. *)
Theorem container_prefix_sound (w : World) (image : string)
    (Hprefix : get_openfoam_command_prefix w =
                 [ "docker"; "run"; "--rm"; "-v"; "${PWD}:/workspace"; "-w";
                   "/workspace"; image ]) :
  is_in_openfoam_environment w = false
  ∧ on_path w "docker"
  ∧ ((∃ version, get_openfoam_version w = Some version
                 ∧ not_on_path w ("openfoam" +:+ version)
                 ∧ image = "openfoam/openfoam" +:+ version +:+ "-paraview510")
     ∨ (get_openfoam_version w = None
        ∧ image = "openfoam/openfoam2412-paraview510")).
Proof.
  destruct (is_in_openfoam_environment w) eqn:Hin.
  { unfold get_openfoam_command_prefix in Hprefix. by rewrite Hin in Hprefix. }
  split; [done|].
  destruct (get_openfoam_command_prefix_cases w Hin)
    as [(v & Hv & Hw & Hp) | [(v & Hv & Hw & Hd & Hp) | [(v & _ & _ & _ & Hp)
        | [(Hv & Hd & Hp) | (_ & _ & Hp)]]]];
    rewrite Hp in Hprefix; try discriminate Hprefix.
  - injection Hprefix as <-. split; [done|]. left. by exists v.
  - injection Hprefix as <-. split; [done|]. by right.
Qed.

Lemma container_prefix_sound_witness :
  is_in_openfoam_environment pinned_7_without_wrapper = false
  ∧ on_path pinned_7_without_wrapper "docker"
  ∧ ((∃ version, get_openfoam_version pinned_7_without_wrapper = Some version
                 ∧ not_on_path pinned_7_without_wrapper ("openfoam" +:+ version)
                 ∧ "openfoam/openfoam7-paraview510" =
                     "openfoam/openfoam" +:+ version +:+ "-paraview510")
     ∨ (get_openfoam_version pinned_7_without_wrapper = None
        ∧ "openfoam/openfoam7-paraview510" = "openfoam/openfoam2412-paraview510")).
Proof.
  apply (container_prefix_sound pinned_7_without_wrapper). reflexivity.
Defined.

(** X7. The prefix is empty in exactly two situations: the environment is
    active, or neither [docker] nor the wrapper of the resolved version (if
    there is one) resolves on the search path. *)
Theorem empty_prefix_iff (w : World) :
  get_openfoam_command_prefix w = [] ↔
    is_in_openfoam_environment w = true
    ∨ (not_on_path w "docker"
       ∧ ∀ version, get_openfoam_version w = Some version →
                    not_on_path w ("openfoam" +:+ version)).
Proof.
  destruct (is_in_openfoam_environment w) eqn:Hin.
  { unfold get_openfoam_command_prefix. rewrite Hin. naive_solver. }
  unfold on_path, not_on_path in *.
  destruct (get_openfoam_command_prefix_cases w Hin)
    as [(v & Hv & Hw & Hp) | [(v & Hv & Hw & Hd & Hp) | [(v & Hv & Hw & Hd & Hp)
        | [(Hv & Hd & Hp) | (Hv & Hd & Hp)]]]];
    unfold on_path, not_on_path in *; rewrite Hp; split;
    try discriminate; try (intros _; right; split; [done|]; intros ?; congruence).
  - intros [? | [_ Hno]]; [done|]. specialize (Hno v Hv). congruence.
  - intros [? | [? _]]; congruence.
  - done.
  - intros [? | [? _]]; congruence.
  - done.
Qed.

(** X8. With no override set and the environment inactive, an installed
    wrapper of a known version is always preferred: the prefix is the single
    token of the first of 2412, 2406, 11, 10, 9, 8 whose wrapper resolves,
    whether or not [docker] resolves too. *)
Theorem installed_wrapper_preferred (w : World) (version : string)
    (Hlib : env_unset w "FOAMLIB_OPENFOAM_VERSION")
    (Hgen : env_unset w "OPENFOAM_VERSION")
    (Hinactive : is_in_openfoam_environment w = false)
    (Hfirst : first_resolvable w [ "2412"; "2406"; "11"; "10"; "9"; "8" ] version) :
  get_openfoam_command_prefix w = [ "openfoam" +:+ version ].
Proof.
  assert (get_openfoam_version w = Some version) as Hv.
  { apply getenv_true_None in Hlib, Hgen.
    unfold get_openfoam_version, version_from_environment.
    rewrite Hlib, Hgen, Hinactive. by apply probe_versions_first. }
  rewrite get_openfoam_command_prefix_inactive, Hv by done.
  unfold wrapper_or_docker. cbn [PyStr.format].
  destruct Hfirst as (_ & _ & _ & _ & Hhit). unfold on_path in Hhit. by rewrite Hhit.
Qed.

Lemma installed_wrapper_preferred_witness :
  on_path wrappers_11_and_9 "docker"
  ∧ get_openfoam_command_prefix wrappers_11_and_9 = [ "openfoam11" ].
Proof.
  split; [reflexivity|].
  refine (installed_wrapper_preferred wrappers_11_and_9 "11" _ _ _ _);
    [by left | by left | reflexivity |].
  exists [ "2412"; "2406" ], [ "10"; "9"; "8" ]. split; [reflexivity|].
  split; [|reflexivity].
  intros u Hu. apply elem_of_cons in Hu as [->|Hu]; [reflexivity|].
  apply elem_of_cons in Hu as [->|Hu]; [reflexivity|].
  by apply elem_of_nil in Hu.
Defined.

(** ** What the functions read *)

Lemma same_inputs_getenv_true w w' var :
  same_inputs w w' → var ∈ read_variables → getenv_true w var = getenv_true w' var.
Proof. intros [Henv _] Hvar. unfold getenv_true, getenv. by rewrite (Henv var Hvar). Qed.

Lemma same_inputs_probe_versions w w' versions :
  same_inputs w w' → probe_versions w versions = probe_versions w' versions.
Proof.
  intros [_ Hwhich]. induction versions as [|v rest IH]; cbn [probe_versions]; [done|].
  by rewrite Hwhich, IH.
Qed.

Lemma same_inputs_try_defaults w w' version defaults :
  same_inputs w w' → try_defaults w version defaults = try_defaults w' version defaults.
Proof.
  intros [_ Hwhich]. induction defaults as [|v rest IH]; cbn [try_defaults]; [done|].
  by rewrite Hwhich, IH.
Qed.

Lemma same_inputs_active w w' :
  same_inputs w w' → is_in_openfoam_environment w = is_in_openfoam_environment w'.
Proof.
  intros [Henv Hwhich]. unfold is_in_openfoam_environment, openfoam_vars.
  cbn [any_var_set]. unfold getenv. rewrite !and_truthy, !Hwhich.
  rewrite !Henv; [done | unfold read_variables; set_solver ..].
Qed.

Lemma same_inputs_version w w' :
  same_inputs w w' → get_openfoam_version w = get_openfoam_version w'.
Proof.
  intros Hsame. unfold get_openfoam_version, version_from_environment.
  rewrite (same_inputs_active w w' Hsame), (same_inputs_probe_versions w w' _ Hsame).
  rewrite !(same_inputs_getenv_true w w' _ Hsame);
    [done | unfold read_variables; set_solver ..].
Qed.

Lemma same_inputs_prefix w w' :
  same_inputs w w' → get_openfoam_command_prefix w = get_openfoam_command_prefix w'.
Proof.
  intros Hsame. unfold get_openfoam_command_prefix, wrapper_or_docker.
  rewrite (same_inputs_active w w' Hsame), (same_inputs_version w w' Hsame).
  rewrite (same_inputs_try_defaults w w' _ _ Hsame).
  destruct Hsame as [_ Hwhich]. by rewrite !Hwhich.
Qed.

(** X9. The four functions read seven environment variables and, of the
    search path, only whether a program resolves: two worlds that agree on
    these give the same activity, version, prefix and wrapped commands.  Any
    other variable, and the directory a program is found in, have no
    influence. *)
Theorem reads_only_its_inputs (w w' : World) (Hsame : same_inputs w w') :
  is_in_openfoam_environment w = is_in_openfoam_environment w'
  ∧ get_openfoam_version w = get_openfoam_version w'
  ∧ get_openfoam_command_prefix w = get_openfoam_command_prefix w'
  ∧ ∀ cmd, wrap_openfoam_command w cmd = wrap_openfoam_command w' cmd.
Proof.
  split; [by apply same_inputs_active|].
  split; [by apply same_inputs_version|].
  split; [by apply same_inputs_prefix|].
  intros [s|l]; unfold wrap_openfoam_command;
    by rewrite (same_inputs_prefix w w' Hsame).
Qed.

Lemma reads_only_its_inputs_witness :
  get_openfoam_command_prefix docker_only = get_openfoam_command_prefix docker_elsewhere.
Proof.
  refine (proj1 (proj2 (proj2 (reads_only_its_inputs docker_only docker_elsewhere _)))).
  split.
  - intros var Hvar. unfold read_variables in Hvar.
    repeat (apply elem_of_cons in Hvar as [->|Hvar]; [reflexivity|]).
    by apply elem_of_nil in Hvar.
  - intros prog. cbn [which docker_only docker_elsewhere].
    destruct (decide (prog = "docker")); reflexivity.
Defined.

(** ** When and how a command changes *)

Lemma length_append (a b : string) :
  String.length (a +:+ b) = String.length a + String.length b.
Proof. induction a as [|c a IH]; [done|]. rewrite append_cons. cbn. by rewrite IH. Qed.

Lemma prefixed_string_differs (p s : string) : p +:+ " " +:+ s ≠ s.
Proof.
  intros H. apply (f_equal String.length) in H.
  rewrite !length_append in H. cbn in H. lia.
Qed.

Lemma prefixed_sequence_differs (tok : string) (rest : list string) (l : list token) :
  (Str <$> tok :: rest) ++ l ≠ l.
Proof.
  intros H. apply (f_equal length) in H.
  rewrite length_app, length_fmap in H. cbn in H. lia.
Qed.

(** X10. [wrap_openfoam_command] returns its argument exactly when the
    command does not name a recognized command or the prefix is empty; in
    every other case the result differs from the argument. *)
Theorem wrap_unchanged_iff (w : World) (cmd : command) :
  wrap_openfoam_command w cmd = Ret cmd ↔
    ¬ names_recognized_command cmd ∨ get_openfoam_command_prefix w = [].
Proof.
  destruct cmd as [s|l]; cbn [names_recognized_command].
  - rewrite wrap_string_eq.
    destruct (head (PyStr.split s)) as [word|].
    2:{ split; [|done]. intros _. left. by intros (? & [=] & _). }
    destruct (should_wrap_command (Str word)) eqn:Hword.
    2:{ split; [|done]. intros _. left. intros (? & [= <-] & ?). congruence. }
    destruct (get_openfoam_command_prefix w) as [|tok rest].
    { split; [by right | done]. }
    split.
    + intros [= H]. by apply prefixed_string_differs in H.
    + intros [Hnot | ?]; [|done]. destruct Hnot. by exists word.
  - rewrite wrap_sequence_eq.
    destruct (head l) as [first|].
    2:{ split; [|done]. intros _. left. by intros (? & [=] & _). }
    destruct (should_wrap_command first) eqn:Hfirst.
    2:{ split; [|done]. intros _. left. intros (? & [= <-] & ?). congruence. }
    destruct (get_openfoam_command_prefix w) as [|tok rest].
    { split; [by right | done]. }
    split.
    + intros [= H]. by apply prefixed_sequence_differs in H.
    + intros [Hnot | ?]; [|done]. destruct Hnot. by exists first.
Qed.

(** X11. Wrapping keeps the form of the command and only ever prepends: a
    string comes back as a string that ends with the original string, a token
    sequence as a sequence that ends with the original tokens, and what is
    put in front is nothing or the prefix. *)
Theorem wrap_only_prepends (w : World) (cmd once : command)
    (Honce : wrap_openfoam_command w cmd = Ret once) :
  match cmd, once with
  | StrCmd s, StrCmd s' =>
      s' = s ∨ s' = PyStr.join " " (get_openfoam_command_prefix w) +:+ " " +:+ s
  | SeqCmd l, SeqCmd l' =>
      l' = l ∨ l' = (Str <$> get_openfoam_command_prefix w) ++ l
  | _, _ => False
  end.
Proof.
  destruct cmd as [s|l].
  - rewrite wrap_string_eq in Honce.
    destruct (head (PyStr.split s)) as [word|];
      [destruct (should_wrap_command (Str word));
         [destruct (get_openfoam_command_prefix w) as [|tok rest]|]|];
      injection Honce as <-; auto.
  - rewrite wrap_sequence_eq in Honce.
    destruct (head l) as [first|];
      [destruct (should_wrap_command first);
         [destruct (get_openfoam_command_prefix w) as [|tok rest]|]|];
      injection Honce as <-; auto.
Qed.

Lemma wrap_only_prepends_witness :
  "openfoam2412 blockMesh" = "blockMesh"
  ∨ "openfoam2412 blockMesh" =
      PyStr.join " " (get_openfoam_command_prefix wrapper_2412_only) +:+ " " +:+ "blockMesh".
Proof.
  apply (wrap_only_prepends wrapper_2412_only (StrCmd "blockMesh")
           (StrCmd "openfoam2412 blockMesh")).
  reflexivity.
Defined.

(** ** Strings and token sequences *)

Lemma split_runs_app_space a c b :
  PyStr.isspace_char c = true →
  PyStr.split_runs (a +:+ String c b) =
    (fst (PyStr.split_runs a), snd (PyStr.split_runs a) ++ PyStr.split b).
Proof.
  intros Hc. induction a as [|c0 a IH].
  - rewrite append_nil, split_runs_cons, Hc, split_eq. reflexivity.
  - rewrite append_cons, !split_runs_cons, IH.
    destruct (PyStr.isspace_char c0); cbn [fst snd]; [|done].
    by destruct (fst (PyStr.split_runs a)).
Qed.

(** Splitting at a whitespace character splits the list of words. *)
Lemma split_app_space a c b :
  PyStr.isspace_char c = true →
  PyStr.split (a +:+ String c b) = PyStr.split a ++ PyStr.split b.
Proof.
  intros Hc. rewrite (split_eq (a +:+ String c b)), split_runs_app_space by done.
  cbn [fst snd]. rewrite (split_eq a). by destruct (fst (PyStr.split_runs a)).
Qed.

Lemma split_runs_token tok :
  whitespace_free tok → PyStr.split_runs tok = (tok, []).
Proof.
  unfold whitespace_free. induction tok as [|c tok IH]; cbn [PyStr.all_chars]; [done|].
  intros [Hc Htok]%andb_true_iff. rewrite split_runs_cons, IH by done.
  unfold no_space in Hc. apply negb_true_iff in Hc. by rewrite Hc.
Qed.

Lemma split_token tok : whitespace_free tok → tok ≠ "" → PyStr.split tok = [tok].
Proof.
  intros Hfree Hne. rewrite split_eq, split_runs_token by done. by destruct tok.
Qed.

(** Joining whitespace-free tokens with spaces and splitting again gives the
    tokens back. *)
Lemma split_join toks :
  Forall (λ tok, whitespace_free tok ∧ tok ≠ "") toks →
  PyStr.split (PyStr.join " " toks) = toks.
Proof.
  induction 1 as [|tok toks [Hfree Hne] Htoks IH]; [done|].
  destruct toks as [|tok' toks].
  - by apply split_token.
  - change (PyStr.join " " (tok :: tok' :: toks))
      with (tok +:+ String " " (PyStr.join " " (tok' :: toks))).
    rewrite split_app_space by done. rewrite IH. by rewrite split_token.
Qed.

Lemma all_chars_app f a b :
  PyStr.all_chars f (a +:+ b) = PyStr.all_chars f a && PyStr.all_chars f b.
Proof.
  induction a as [|c a IH]; [done|].
  rewrite append_cons. cbn [PyStr.all_chars]. by rewrite IH, andb_assoc.
Qed.

Lemma nonempty_app_l (a b : string) : a ≠ "" → a +:+ b ≠ "".
Proof. by destruct a. Qed.

(** The tokens of a prefix have no whitespace unless the resolved version
    brings some. *)
Lemma prefix_tokens_whitespace_free w :
  (∀ version, get_openfoam_version w = Some version → whitespace_free version) →
  Forall (λ tok, whitespace_free tok ∧ tok ≠ "") (get_openfoam_command_prefix w).
Proof.
  intros Hfree.
  assert (∀ v, whitespace_free v →
               Forall (λ tok, whitespace_free tok ∧ tok ≠ "") (docker_prefix v)) as Hdocker.
  { intros v Hv. unfold docker_prefix.
    repeat (apply Forall_cons; split; [by split|]).
    apply Forall_cons; split; [|by apply Forall_nil].
    split; [|by apply nonempty_app_l].
    unfold whitespace_free in *. by rewrite !all_chars_app, Hv. }
  destruct (is_in_openfoam_environment w) eqn:Hin.
  { unfold get_openfoam_command_prefix. rewrite Hin. by apply Forall_nil. }
  destruct (get_openfoam_command_prefix_cases w Hin)
    as [(v & Hv & _ & ->) | [(v & Hv & _ & _ & ->) | [(v & _ & _ & _ & ->)
        | [(_ & _ & ->) | (_ & _ & ->)]]]].
  - apply Forall_cons; split; [|by apply Forall_nil].
    split; [|by apply nonempty_app_l].
    unfold whitespace_free. rewrite all_chars_app. by rewrite (Hfree v Hv).
  - apply Hdocker. by apply Hfree.
  - by apply Forall_nil.
  - by apply Hdocker.
  - by apply Forall_nil.
Qed.

(** X12. The two forms of a command are wrapped alike: when the resolved
    version (if any) has no whitespace, splitting the wrapped string gives
    the wrapped sequence of the words of the original string. *)
Theorem string_and_sequence_forms_agree (w : World) (s s' : string)
    (Hfree : ∀ version, get_openfoam_version w = Some version → whitespace_free version)
    (Hwrapped : wrap_openfoam_command w (StrCmd s) = Ret (StrCmd s')) :
  wrap_openfoam_command w (SeqCmd (Str <$> PyStr.split s)) =
    Ret (SeqCmd (Str <$> PyStr.split s')).
Proof.
  pose proof (prefix_tokens_whitespace_free w Hfree) as Htoks.
  rewrite wrap_string_eq in Hwrapped. rewrite wrap_sequence_eq, head_fmap_Str.
  destruct (head (PyStr.split s)) as [word|]; cbn [fmap option_fmap option_map];
    [|by injection Hwrapped as <-].
  destruct (should_wrap_command (Str word)); [|by injection Hwrapped as <-].
  destruct (get_openfoam_command_prefix w) as [|tok rest]; [by injection Hwrapped as <-|].
  assert (s' = PyStr.join " " (tok :: rest) +:+ String " " s) as ->
    by (injection Hwrapped as <-; reflexivity).
  rewrite split_app_space by done. rewrite split_join by done.
  by rewrite fmap_app.
Qed.

Lemma string_and_sequence_forms_agree_witness :
  wrap_openfoam_command docker_only
    (SeqCmd (Str <$> PyStr.split "blockMesh  -case	my_case")) =
    Ret (SeqCmd [ Str "docker"; Str "run"; Str "--rm"; Str "-v";
                  Str "${PWD}:/workspace"; Str "-w"; Str "/workspace";
                  Str "openfoam/openfoam2412-paraview510";
                  Str "blockMesh"; Str "-case"; Str "my_case" ]).
Proof.
  refine (string_and_sequence_forms_agree docker_only "blockMesh  -case	my_case"
            "docker run --rm -v ${PWD}:/workspace -w /workspace openfoam/openfoam2412-paraview510 blockMesh  -case	my_case"
            _ _).
  - intros version Hversion. discriminate Hversion.
  - reflexivity.
Defined.

(** ** Blank strings and leading whitespace *)

Lemma split_runs_blank s :
  PyStr.all_chars PyStr.isspace_char s = true → PyStr.split_runs s = ("", []).
Proof.
  induction s as [|c s IH]; cbn [PyStr.all_chars]; [done|].
  intros [Hc Hs]%andb_true_iff. by rewrite split_runs_cons, Hc, IH.
Qed.

(** X13. A string command that is empty or consists of whitespace only has
    no first word; it is returned unchanged in every world, and no index
    error is raised. *)
Theorem blank_string_unchanged (w : World) (s : string)
    (Hblank : PyStr.all_chars PyStr.isspace_char s = true) :
  PyStr.split s = [] ∧ wrap_openfoam_command w (StrCmd s) = Ret (StrCmd s).
Proof.
  assert (PyStr.split s = []) as Hsplit.
  { by rewrite split_eq, split_runs_blank. }
  split; [done|]. by rewrite wrap_string_eq, Hsplit.
Qed.

Lemma blank_string_unchanged_witness :
  wrap_openfoam_command wrapper_2412_only (StrCmd "  	 ") = Ret (StrCmd "  	 ").
Proof.
  refine (proj2 (blank_string_unchanged wrapper_2412_only "  	 " _)). reflexivity.
Defined.

Lemma split_leading_space c s :
  PyStr.isspace_char c = true → PyStr.split (String c s) = PyStr.split s.
Proof.
  intros Hc. rewrite (split_eq (String c s)), split_runs_cons, Hc. cbn [fst snd].
  by rewrite split_eq.
Qed.

(** X14. Whitespace in front of a string command plays no part in the
    decision and is kept: the string with a leading whitespace character is
    wrapped with the same text in front as the string without it. *)
Theorem leading_whitespace_kept (w : World) (c : ascii) (s : string)
    (Hspace : PyStr.isspace_char c = true) :
  ∃ front,
    wrap_openfoam_command w (StrCmd s) = Ret (StrCmd (front +:+ s))
    ∧ wrap_openfoam_command w (StrCmd (String c s)) = Ret (StrCmd (front +:+ String c s)).
Proof.
  rewrite !wrap_string_eq, split_leading_space by done.
  destruct (head (PyStr.split s)) as [word|]; [|by exists ""].
  destruct (should_wrap_command (Str word)); [|by exists ""].
  destruct (get_openfoam_command_prefix w) as [|tok rest]; [by exists ""|].
  exists (PyStr.join " " (tok :: rest) +:+ " ").
  assert (∀ a b x : string, (a +:+ b) +:+ x = a +:+ b +:+ x) as Hassoc.
  { intros a b x. induction a as [|y a IH]; [done|]. by rewrite !append_cons, IH. }
  by rewrite !Hassoc.
Qed.

Lemma leading_whitespace_kept_witness :
  ∃ front,
    wrap_openfoam_command wrapper_2412_only (StrCmd "checkMesh") =
      Ret (StrCmd (front +:+ "checkMesh"))
    ∧ wrap_openfoam_command wrapper_2412_only (StrCmd " checkMesh") =
      Ret (StrCmd (front +:+ " checkMesh")).
Proof.
  apply (leading_whitespace_kept wrapper_2412_only " " "checkMesh"). reflexivity.
Defined.

(** ** Commands given by path *)

Lemma recognized_name_no_slash name :
  name ∈ OPENFOAM_COMMANDS → PyStr.contains "/" name = false.
Proof. intros H. by_cases_on_commands H; by subst name. Qed.

(** X15. A command invoked by a path is wrapped only when the path is a
    path-like object: a string command whose first word contains a slash,
    and a sequence whose first token is a plain string containing a slash,
    come back unchanged in every world. *)
Theorem plain_path_never_wrapped (w : World) (first : string)
    (Hslash : PyStr.contains "/" first = true) :
  (∀ s, head (PyStr.split s) = Some first →
        wrap_openfoam_command w (StrCmd s) = Ret (StrCmd s))
  ∧ (∀ args, wrap_openfoam_command w (SeqCmd (Str first :: args)) =
             Ret (SeqCmd (Str first :: args))).
Proof.
  assert (should_wrap_command (Str first) = false) as Hnot.
  { unfold should_wrap_command. apply bool_decide_eq_false. cbn [cmd_name].
    intros Hin%recognized_name_no_slash. congruence. }
  split.
  - intros s Hhead. by rewrite wrap_string_eq, Hhead, Hnot.
  - intros args. rewrite wrap_sequence_eq. cbn [head]. by rewrite Hnot.
Qed.

Lemma plain_path_never_wrapped_witness :
  wrap_openfoam_command wrapper_2412_only (StrCmd "/opt/bin/blockMesh -case c") =
    Ret (StrCmd "/opt/bin/blockMesh -case c")
  ∧ wrap_openfoam_command wrapper_2412_only
      (SeqCmd [ Str "/opt/bin/blockMesh"; Str "-case"; Str "c" ]) =
    Ret (SeqCmd [ Str "/opt/bin/blockMesh"; Str "-case"; Str "c" ]).
Proof.
  destruct (plain_path_never_wrapped wrapper_2412_only "/opt/bin/blockMesh" eq_refl)
    as [Hstring Hsequence].
  split; [apply Hstring; reflexivity | apply Hsequence].
Defined.
